(** * xcodePreferences.js: the iOS deployment-target hook

    A shallow embedding of [src/hooks/lib/ios/xcodePreferences.js] and the
    properties of its two parts: the search for the [.xcodeproj] bundle and
    the loop that raises [IPHONEOS_DEPLOYMENT_TARGET] in every build
    configuration of the parsed project file.

    - JavaScript objects are association lists in insertion order
      (module [JS]); the build configuration records are objects shared by
      reference, so they live in a store indexed by locations and the
      section object holds references into it.
    - Exceptions and effects are threaded by a small state-and-exception
      monad: a thrown value leaves the state as the statements before the
      throw made it.
    - Library functions the file calls but does not define (the version
      comparator, [path.join], the project file parser and serializer) are
      variables of the section that holds the program. *)

From Stdlib Require Import ZArith String Ascii List Lia Bool.
From stdpp Require Import base option list gmap strings.

Local Open Scope string_scope.
Local Open Scope Z_scope.

(** ** Strings: the two regular expressions of the file

    Both [/_comment$/] and [/\.xcodeproj$/] are a literal anchored at the end
    of the input (no [m] flag), so matching is a test for a literal suffix. *)

Fixpoint ends_with (suffix s : string) : bool :=
  String.eqb s suffix ||
  match s with
  | EmptyString => false
  | String _ s' => ends_with suffix s'
  end.

(** [strip_suffix suffix s] is [s] without its trailing [suffix]
    (and [s] itself when [s] does not end with it). *)
Fixpoint strip_suffix (suffix s : string) : string :=
  if String.eqb s suffix then EmptyString
  else match s with
       | EmptyString => EmptyString
       | String c s' => String c (strip_suffix suffix s')
       end.

(** Node's [path.basename(p, ext)] on a name [p] without path separators,
    which is what [fs.readdirSync] returns: the name without [ext] when it
    ends with it, the name otherwise. *)
Definition basename (p ext : string) : string :=
  if ends_with ext p then strip_suffix ext p else p.

(** ** JavaScript objects with string keys *)

Module JS.

(** An object is the list of its own properties in insertion order, the
    order in which [Object.keys] and [for ... in] enumerate keys that are not
    array indices (the keys of the section are 24-digit identifiers, with or
    without the [_comment] suffix). An object has no key twice, and [set]
    keeps it so. *)
Definition obj (V : Type) : Type := list (string * V).

Section Obj.
Context {V : Type}.

Definition keys (o : obj V) : list string := map fst o.

(** [o[k]], with [None] for [undefined]. *)
Fixpoint get (k : string) (o : obj V) : option V :=
  match o with
  | [] => None
  | (k', v) :: o' => if String.eqb k k' then Some v else get k o'
  end.

(** [o[k] = v]: overwrite in place, or append a new property. *)
Fixpoint set (k : string) (v : V) (o : obj V) : obj V :=
  match o with
  | [] => [(k, v)]
  | (k', v') :: o' =>
      if String.eqb k k' then (k, v) :: o' else (k', v') :: set k v o'
  end.

End Obj.

(** Truthiness of a string-valued property read: [undefined] and the empty
    string are falsy, every other string is truthy. *)
Definition truthy (v : option string) : bool :=
  match v with
  | Some s => negb (String.eqb s "")
  | None => false
  end.

End JS.

(** ** Data model *)

Definition loc := positive.

(** One [XCBuildConfiguration] object of the parsed project file. *)
Record XCBuildConfiguration := mkConfig {
  isa : string;
  name : string;
  buildSettings : JS.obj string
}.

(** A property value of the section object: a string (the text of a
    [_comment] pseudo-entry), a reference to a record object, or
    [undefined]. *)
Inductive value :=
| VUndefined
| VString (text : string)
| VRef (l : loc).

(** The parsed project ([pbxProject]) as far as this file looks into it:
    the object returned by [pbxXCBuildConfigurationSection()] and the store
    of the record objects it refers to. *)
Record pbxProject := mkProject {
  pbxXCBuildConfigurationSection : JS.obj value;
  objects : gmap loc XCBuildConfiguration
}.

(** ** Exceptions and state *)

Inductive exn :=
| Error (message : string)
| TypeError
| ReferenceError (identifier : string)
| SystemError (code syscall : string) (path : option string)
| LibraryError (message : string).

Inductive result (A : Type) :=
| Ok (a : A)
| Throw (e : exn).
Arguments Ok {A} a.
Arguments Throw {A} e.

Definition M (S A : Type) : Type := S -> result A * S.

Definition ret {S A} (a : A) : M S A := fun s => (Ok a, s).
Definition throw {S A} (e : exn) : M S A := fun s => (Throw e, s).
Definition bind {S A B} (m : M S A) (k : A -> M S B) : M S B :=
  fun s => match m s with
           | (Ok a, s') => k a s'
           | (Throw e, s') => (Throw e, s')
           end.
Definition get_state {S} : M S S := fun s => (Ok s, s).
Definition modify {S} (f : S -> S) : M S unit := fun s => (Ok tt, f s).
Definition lift {S A} (r : result A) : M S A := fun s => (r, s).

Declare Scope js_scope.
Delimit Scope js_scope with js.
Notation "x <- m ;; k" := (bind m (fun x => k))
  (at level 100, m at next level, right associativity) : js_scope.
Notation "m ;;; k" := (bind m (fun _ => k))
  (at level 100, right associativity) : js_scope.
Local Open Scope js_scope.

(** ** Module constants *)

Definition IOS_DEPLOYMENT_TARGET : string := "8.0".

(** [COMMENT_KEY.test(k)] for [COMMENT_KEY = /_comment$/]. *)
Definition COMMENT_KEY (k : string) : bool := ends_with "_comment" k.

Definition IPHONEOS_DEPLOYMENT_TARGET : string := "IPHONEOS_DEPLOYMENT_TARGET".

(** ** nonComments *)

(** [obj[k]] as a JavaScript value. *)
Definition index (obj : JS.obj value) (k : string) : value :=
  default VUndefined (JS.get k obj).

(** The [for] loop of [nonComments] over [keys], filling [newObj]. *)
Fixpoint nonComments_loop (keys : list string) (obj newObj : JS.obj value)
  : JS.obj value :=
  match keys with
  | [] => newObj
  | k :: keys' =>
      nonComments_loop keys' obj
        (if COMMENT_KEY k then newObj else JS.set k (index obj k) newObj)
  end.

Definition nonComments (obj : JS.obj value) : JS.obj value :=
  nonComments_loop (JS.keys obj) obj [].

(** ** The file system and the effects of the hook *)

Inductive node :=
| File (content : string)
| Dir (entries : list string).

(** What the hook does to the outside, in order. *)
Inductive event :=
| ExistsSync (p : string)
| ReaddirSync (p : string)
| StatSync (p : string)
| ParseProjectFile (root : string)
| ParseSync (p : string)
| WriteSync (project : pbxProject)
| WriteFileSync (p : string) (content : string)
| ConsoleLog (message : string).

(** Paths are compared as they are spelled. *)
Record world := mkWorld {
  files : gmap string node;
  log : list event
}.

Definition emit (e : event) : M world unit :=
  modify (fun w => mkWorld (files w) (log w ++ [e])).

(** *** The folder a path lies in *)

Definition is_separator (c : ascii) : bool := Ascii.eqb c "/"%char.

Fixpoint drop_while {A : Type} (f : A -> bool) (l : list A) : list A :=
  match l with
  | [] => []
  | x :: l' => if f x then drop_while f l' else l
  end.

(** [p] without the separators at its end. *)
Definition strip_separators (p : string) : string :=
  string_of_list_ascii
    (rev (drop_while is_separator (rev (list_ascii_of_string p)))).

(** The path of the folder that holds [p], as the system resolves it: [p]
    without its last component and the separators around it; "/" for a path
    directly under the root and "." for a bare name. *)
Definition dirname (p : string) : string :=
  let chars := rev (list_ascii_of_string p) in
  match drop_while is_separator chars with
  | [] => match chars with [] => "." | _ => "/" end
  | component =>
      let above := drop_while (fun c => negb (is_separator c)) component in
      match drop_while is_separator above with
      | [] => match above with [] => "." | _ => "/" end
      | folder => string_of_list_ascii (rev folder)
      end
  end.

(** Whether one of the folders above [p] is a regular file. *)
Fixpoint under_file (fuel : nat) (fs : gmap string node) (p : string) : bool :=
  match fuel with
  | O => false
  | S fuel' =>
      let folder := dirname p in
      match fs !! folder with
      | Some (File _) => true
      | _ => if String.eqb folder p then false else under_file fuel' fs folder
      end
  end.

(** What [syscall] throws on a path that is not there: [ENOTDIR] when a
    regular file stands where one of its folders should be, [ENOENT]
    otherwise. *)
Definition not_there (fs : gmap string node) (syscall p : string) : exn :=
  let bare := strip_separators p in
  let file_with_separator :=
    match fs !! bare with
    | Some (File _) => negb (String.eqb bare p)
    | _ => false
    end in
  if file_with_separator || under_file (String.length p) fs bare
  then SystemError "ENOTDIR" syscall (Some p)
  else SystemError "ENOENT" syscall (Some p).

(** Whether [fs.writeFileSync] can write to [p]: [p] is a regular file, or
    it is not there and the folder that holds it is a directory. *)
Definition writable (fs : gmap string node) (p : string) : bool :=
  match fs !! p with
  | Some (File _) => true
  | Some (Dir _) => false
  | None =>
      match fs !! dirname p with
      | Some (Dir _) => true
      | _ => false
      end
  end.

Definition existsSync (p : string) : M world bool :=
  emit (ExistsSync p) ;;;
  w <- get_state ;;
  ret (match files w !! p with Some _ => true | None => false end).

Definition readdirSync (p : string) : M world (list string) :=
  emit (ReaddirSync p) ;;;
  w <- get_state ;;
  match files w !! p with
  | Some (Dir entries) => ret entries
  | Some (File _) => throw (SystemError "ENOTDIR" "scandir" (Some p))
  | None => throw (not_there (files w) "scandir" p)
  end.

(** [fs.statSync(p).isDirectory()] *)
Definition statSync_isDirectory (p : string) : M world bool :=
  emit (StatSync p) ;;;
  w <- get_state ;;
  match files w !! p with
  | Some (Dir _) => ret true
  | Some (File _) => ret false
  | None => throw (not_there (files w) "stat" p)
  end.

Definition readFileSync (p : string) : M world string :=
  w <- get_state ;;
  match files w !! p with
  | Some (File content) => ret content
  | Some (Dir _) => throw (SystemError "EISDIR" "read" None)
  | None => throw (not_there (files w) "open" p)
  end.

(** [fs.writeFileSync(p, content)]: it overwrites a regular file and creates
    the file in a folder that is there; it throws on a directory and where
    the folder is missing or is a regular file. The listings held for the
    folders are those [readdirSync] reads before anything is written; a file
    that is created is not added to them. *)
Definition writeFileSync (p content : string) : M world unit :=
  emit (WriteFileSync p content) ;;;
  w <- get_state ;;
  match files w !! p with
  | Some (Dir _) => throw (SystemError "EISDIR" "open" (Some p))
  | Some (File _) =>
      modify (fun w => mkWorld (<[p := File content]> (files w)) (log w))
  | None =>
      match files w !! dirname p with
      | Some (Dir _) =>
          modify (fun w => mkWorld (<[p := File content]> (files w)) (log w))
      | _ => throw (not_there (files w) "open" p)
      end
  end.

Definition try_catch {S A} (m : M S A) (handler : exn -> M S A) : M S A :=
  fun s => match m s with
           | (Throw e, s') => handler e s'
           | r => r
           end.

(** The text node gives for an error code. *)
Definition describe (code : string) : string :=
  if String.eqb code "ENOENT" then "no such file or directory"
  else if String.eqb code "ENOTDIR" then "not a directory"
  else if String.eqb code "EISDIR" then "illegal operation on a directory"
  else "unknown error".

(** [String(e)]: the name of the error and its message. The message of a
    system error is [code: description, syscall 'path']; the only errors
    that reach this function are those of [fs.statSync]. *)
Definition exn_to_string (e : exn) : string :=
  match e with
  | Error m => "Error: " ++ m
  | TypeError => "TypeError"
  | ReferenceError x => "ReferenceError: " ++ x ++ " is not defined"
  | SystemError code syscall path =>
      "Error: " ++ code ++ ": " ++ describe code ++ ", " ++ syscall ++
      match path with
      | Some p => " '" ++ p ++ "'"
      | None => ""
      end
  | LibraryError m => "Error: " ++ m
  end.

(** The cordova context: [context.opts.projectRoot]; when the platform API is
    loaded, [context.opts.cordova.project] with its
    [parseProjectFile(root).xcode]; and [context.requireCordovaModule], which
    resolves a module by name or throws. *)
Record context := mkContext {
  projectRoot : string;
  cordova_project : option (string -> result pbxProject);
  requireCordovaModule : string -> result unit
}.

(** [!x] for a variable that holds [null] or a string. *)
Definition falsy (x : option string) : bool := negb (JS.truthy x).

Definition with_buildSettings (r : XCBuildConfiguration) (bs : JS.obj string)
  : XCBuildConfiguration :=
  mkConfig (isa r) (name r) bs.

Section Program.

(** [require('node-version-compare')] *)
Variable compare : string -> string -> Z.
(** [path.join] of two segments *)
Variable path_join : string -> string -> string.
(** [xcode.project(path).parseSync()] on the content of the file, and
    [pbxProject.writeSync()] *)
Variable parseSync : string -> result pbxProject.
Variable writeSync : pbxProject -> result string.
(** [logMe], which the file calls but does not declare *)
Variable logMe : string -> M world unit.

(** *** The loop of activateAssociativeDomains (lines 76-88)

    The state is the store of record objects; the flag
    [deploymentTargetIsUpdated] is passed along. *)

(** [buildSettings['IPHONEOS_DEPLOYMENT_TARGET'] = IOS_DEPLOYMENT_TARGET]
    on the record object at [l]. *)
Definition set_deployment_target (l : loc) (r : XCBuildConfiguration)
  : M (gmap loc XCBuildConfiguration) unit :=
  modify (fun objs =>
    <[l := with_buildSettings r
             (JS.set IPHONEOS_DEPLOYMENT_TARGET IOS_DEPLOYMENT_TARGET
                (buildSettings r))]> objs).

(** The body of the [for ... in] loop for the key [config]. Reading
    [buildSettings] off a value that is not a record object gives
    [undefined], and indexing that throws a [TypeError]; a reference with
    nothing in the store stands for an object without [buildSettings]. *)
Definition loop_body (configurations : JS.obj value) (config : string)
    (deploymentTargetIsUpdated : bool)
  : M (gmap loc XCBuildConfiguration) bool :=
  match index configurations config with
  | VRef l =>
      objs <- get_state ;;
      match objs !! l with
      | Some r =>
          let current := JS.get IPHONEOS_DEPLOYMENT_TARGET (buildSettings r) in
          if JS.truthy current then
            if compare (default "" current) IOS_DEPLOYMENT_TARGET =? -1 then
              set_deployment_target l r ;;; ret true
            else ret deploymentTargetIsUpdated
          else
            set_deployment_target l r ;;; ret true
      | None => throw TypeError
      end
  | VString _ | VUndefined => throw TypeError
  end.

Fixpoint for_in (keys : list string) (configurations : JS.obj value)
    (deploymentTargetIsUpdated : bool)
  : M (gmap loc XCBuildConfiguration) bool :=
  match keys with
  | [] => ret deploymentTargetIsUpdated
  | config :: keys' =>
      u <- loop_body configurations config deploymentTargetIsUpdated ;;
      for_in keys' configurations u
  end.

(** Lines 73-88 on a parsed project: the result of the loop (the flag, or
    what was thrown) and the project as the loop left it. *)
Definition patch (pbx : pbxProject) : result bool * pbxProject :=
  let configurations := nonComments (pbxXCBuildConfigurationSection pbx) in
  let (r, objs) :=
    for_in (JS.keys configurations) configurations false (objects pbx) in
  (r, mkProject (pbxXCBuildConfigurationSection pbx) objs).

(** *** activateAssociativeDomains *)

(** Lines 65-71: the project of the platform API when there is one, the
    file at [projectPath] parsed otherwise. *)
Definition load_project (ctx : context) (projectPath : string)
  : M world pbxProject :=
  match cordova_project ctx with
  | Some parseProjectFile =>
      emit (ParseProjectFile (projectRoot ctx)) ;;;
      lift (parseProjectFile (projectRoot ctx))
  | None =>
      emit (ParseSync projectPath) ;;;
      content <- readFileSync projectPath ;;
      lift (parseSync content)
  end.

Definition activateAssociativeDomains (ctx : context) (projFolder : string)
  : M world unit :=
  lift (requireCordovaModule ctx "xcode") ;;;
  let projectPath := path_join projFolder "project.pbxproj" in
  pbx <- load_project ctx projectPath ;;
  let (r, pbx') := patch pbx in
  deploymentTargetIsUpdated <- lift r ;;
  (if deploymentTargetIsUpdated : bool then
     emit (ConsoleLog ("IOS project now has deployment target set as: "
                       ++ IOS_DEPLOYMENT_TARGET))
   else ret tt) ;;;
  emit (WriteSync pbx') ;;;
  content <- lift (writeSync pbx') ;;
  writeFileSync projectPath content.

(** *** directoryExists *)

Definition directoryExists (p : string) : M world bool :=
  try_catch (statSync_isDirectory p)
    (fun e => logMe ("directoryExists error: " ++ exn_to_string e) ;;;
              ret false).

(** *** enableAssociativeDomainsCapability *)

(** The callback of [data.forEach] on the pair [(projFolder, projName)]. *)
Definition visit (iosFolder : string)
    (found : option string * option string) (folder : string)
  : option string * option string :=
  if ends_with ".xcodeproj" folder
  then (Some (path_join iosFolder folder),
        Some (basename folder ".xcodeproj"))
  else found.

(** [projFolder] and [projName] after the [forEach] (lines 32-41); on an
    empty listing the guard [data && data.length] skips a loop that would do
    nothing. *)
Definition find_project (iosFolder : string) (data : list string)
  : option string * option string :=
  fold_left (visit iosFolder) data (None, None).

Definition not_found (iosFolder : string) : exn :=
  Error ("Could not find an .xcodeproj folder in: " ++ iosFolder).

Definition enableAssociativeDomainsCapability (ctx : context) : M world unit :=
  let iosPlatform := path_join (projectRoot ctx) "platforms/ios/" in
  platformExists <- existsSync iosPlatform ;;
  let iosFolder := if platformExists : bool then iosPlatform
                   else projectRoot ctx in
  data <- readdirSync iosFolder ;;
  let (projFolder, projName) := find_project iosFolder data in
  if falsy projFolder || falsy projName then throw (not_found iosFolder)
  else
    isDirectory <- directoryExists iosFolder ;;
    if isDirectory : bool
    then activateAssociativeDomains ctx (default "" projFolder)
    else ret tt.

End Program.

(** ** The version comparator *)

Module Version.

(** [s.split('.')] *)
Fixpoint segments (s : string) : list string :=
  match s with
  | EmptyString => [EmptyString]
  | String c s' =>
      if Ascii.eqb c "."%char then EmptyString :: segments s'
      else match segments s' with
           | seg :: rest => String c seg :: rest
           | [] => [String c EmptyString]
           end
  end.

Definition digit (c : ascii) : option N :=
  let n := N_of_ascii c in
  if ((48 <=? n) && (n <=? 57))%N then Some (n - 48)%N else None.

Fixpoint numeral (acc : N) (s : string) : option N :=
  match s with
  | EmptyString => Some acc
  | String c s' =>
      match digit c with
      | Some d => numeral (10 * acc + d)%N s'
      | None => None
      end
  end.

(** The number a segment denotes; a segment that is not a decimal numeral
    is outside the data model of the settings and is read as 0. *)
Definition number (seg : string) : N := default 0%N (numeral 0%N seg).

(** The sign of a list of segments against the empty version: a missing
    segment counts as 0. *)
Fixpoint sign (a : list N) : Z :=
  match a with
  | [] => 0
  | x :: a' => if (0 <? x)%N then 1 else sign a'
  end.

Fixpoint compare_segments (a b : list N) : Z :=
  match a, b with
  | [], _ => - sign b
  | _, [] => sign a
  | x :: a', y :: b' =>
      match (x ?= y)%N with
      | Lt => -1
      | Gt => 1
      | Eq => compare_segments a' b'
      end
  end.

(** Modelled from the spec: the comparator [compare] that the file loads
    from the package [node-version-compare], whose code is not among the
    sources. The spec describes it as dotted-numeric version ordering:
    each dot-separated segment is compared numerically, not lexically, and
    the result is -1 when the first version is strictly below the second.
    The first segment that differs decides; 1 and 0 are the results for
    above and equal. *)
Definition compare (v1 v2 : string) : Z :=
  compare_segments (map number (segments v1)) (map number (segments v2)).

End Version.

(** ** Stand-ins for the other library functions, for closed examples *)

Module Sample.

(** [path.join] on two normalised segments: one separator between them. *)
Definition path_join (a b : string) : string :=
  if ends_with "/" a then a ++ b else a ++ "/" ++ b.

(** A serializer that prints, for each entry of the section in order, the
    key and the deployment target of the record it refers to. *)
Definition print_entry (objs : gmap loc XCBuildConfiguration)
    (e : string * value) : string :=
  match e.2 with
  | VRef l =>
      match objs !! l with
      | Some r =>
          e.1 ++ "=" ++
          default "" (JS.get IPHONEOS_DEPLOYMENT_TARGET (buildSettings r))
          ++ ";"
      | None => e.1 ++ ";"
      end
  | VString text => e.1 ++ "=" ++ text ++ ";"
  | VUndefined => e.1 ++ ";"
  end.

Definition writeSync (pbx : pbxProject) : result string :=
  Ok (String.concat ""
        (map (print_entry (objects pbx)) (pbxXCBuildConfigurationSection pbx))).

Definition config (target : option string) : XCBuildConfiguration :=
  mkConfig "XCBuildConfiguration" "Debug"
    (match target with
     | Some v => [("PRODUCT_NAME", "App"); (IPHONEOS_DEPLOYMENT_TARGET, v)]
     | None => [("PRODUCT_NAME", "App")]
     end).

(** A project with four configurations (no target, "7.1", "8.10" and
    "10.0") and their comment entries. *)
Definition project : pbxProject :=
  mkProject
    [("1D6058940D05DD3E006BFB54", VRef 1%positive);
     ("1D6058940D05DD3E006BFB54_comment", VString "Debug");
     ("1D6058950D05DD3E006BFB54", VRef 2%positive);
     ("1D6058950D05DD3E006BFB54_comment", VString "Release");
     ("C01FCF4F08A954540054247B", VRef 3%positive);
     ("C01FCF4F08A954540054247B_comment", VString "Debug");
     ("C01FCF5008A954540054247B", VRef 4%positive);
     ("C01FCF5008A954540054247B_comment", VString "Release")]
    (<[1%positive := config None]>
       (<[2%positive := config (Some "7.1")]>
          (<[3%positive := config (Some "8.10")]>
             (<[4%positive := config (Some "10.0")]> ∅)))).

(** A project whose configurations are all at or above the threshold. *)
Definition recent_project : pbxProject :=
  mkProject
    [("1D6058940D05DD3E006BFB54", VRef 1%positive);
     ("1D6058940D05DD3E006BFB54_comment", VString "Debug");
     ("1D6058950D05DD3E006BFB54", VRef 2%positive);
     ("1D6058950D05DD3E006BFB54_comment", VString "Release")]
    (<[1%positive := config (Some "8.0")]>
       (<[2%positive := config (Some "11.2")]> ∅)).

(** The parser: the content "recent" stands for [recent_project], any
    other content for [project]. *)
Definition parseSync (content : string) : result pbxProject :=
  if String.eqb content "recent" then Ok recent_project else Ok project.

(** A process in which [logMe] is not defined. *)
Definition logMe (message : string) : M world unit :=
  throw (ReferenceError "logMe").

Definition hook : context -> M world unit :=
  enableAssociativeDomainsCapability
    Version.compare path_join parseSync writeSync logMe.

(** A project at [/app], with no platform API loaded. *)
Definition ctx : context := mkContext "/app" None (fun _ => Ok tt).

(** [/app] before the iOS platform was added: no [platforms/ios/]. *)
Definition no_platform : world :=
  mkWorld (<["/app" := Dir ["config.xml"; "www"]]> ∅) [].

(** A platform folder without a bundle. *)
Definition no_bundle : world :=
  mkWorld (<["/app/platforms/ios/" := Dir ["cordova"; "www"]]> ∅) [].

Definition bundle : string := "/app/platforms/ios/App.xcodeproj".
Definition project_file : string :=
  "/app/platforms/ios/App.xcodeproj/project.pbxproj".

(** A platform folder whose project file parses to [recent_project]. *)
Definition recent : world :=
  mkWorld (<[project_file := File "recent"]> ∅) [].

Definition recent_text : string :=
  Eval vm_compute in
    match writeSync recent_project with Ok text => text | Throw _ => "" end.

End Sample.

(** ** Reading a project *)

Definition deployment_target (r : XCBuildConfiguration) : option string :=
  JS.get IPHONEOS_DEPLOYMENT_TARGET (buildSettings r).

(** The record object that the key [k] of the section refers to. *)
Definition record_at (pbx : pbxProject) (k : string)
  : option XCBuildConfiguration :=
  match index (pbxXCBuildConfigurationSection pbx) k with
  | VRef l => objects pbx !! l
  | _ => None
  end.

(** Every entry of the section that is not a comment refers to a record
    object, as in a parsed project file. *)
Definition well_formed (pbx : pbxProject) : bool :=
  forallb (fun k => COMMENT_KEY k ||
                    match record_at pbx k with Some _ => true | None => false end)
          (JS.keys (pbxXCBuildConfigurationSection pbx)).

(** The locations that the keys [keys] of [configurations] refer to. *)
Definition refs (configurations : JS.obj value) (keys : list string)
  : list loc :=
  omap (fun k => match index configurations k with
                 | VRef l => Some l
                 | _ => None
                 end) keys.

(** The key [k] of [configurations] refers to a record object of [objs]. *)
Definition live (configurations : JS.obj value)
    (objs : gmap loc XCBuildConfiguration) (k : string) : Prop :=
  exists l, index configurations k = VRef l /\ is_Some (objs !! l).

(** The record [r] with the assignment of lines 81 and 85 done. *)
Definition raised (r : XCBuildConfiguration) : XCBuildConfiguration :=
  with_buildSettings r
    (JS.set IPHONEOS_DEPLOYMENT_TARGET IOS_DEPLOYMENT_TARGET (buildSettings r)).

(** The two tests of lines 79-80 together: the setting is falsy, or
    [compare] puts it strictly below the threshold. *)
Definition must_raise (compare : string -> string -> Z)
    (r : XCBuildConfiguration) : bool :=
  if JS.truthy (deployment_target r)
  then compare (default "" (deployment_target r)) IOS_DEPLOYMENT_TARGET =? -1
  else true.

(** No record of a non-comment entry has to be raised. *)
Definition up_to_date (compare : string -> string -> Z) (pbx : pbxProject)
  : bool :=
  forallb (fun k => COMMENT_KEY k ||
                    match record_at pbx k with
                    | Some r => negb (must_raise compare r)
                    | None => true
                    end)
          (JS.keys (pbxXCBuildConfigurationSection pbx)).

(** What one pass of the loop body makes of a record. *)
Definition settle (compare : string -> string -> Z)
    (r : XCBuildConfiguration) : XCBuildConfiguration :=
  if must_raise compare r then raised r else r.

(** ** Further definitions for the statements below *)

(** What line 91 prints: one line when the flag is set, nothing otherwise. *)
Definition notice (updated : bool) : list event :=
  if updated
  then [ConsoleLog ("IOS project now has deployment target set as: "
                    ++ IOS_DEPLOYMENT_TARGET)]
  else [].

Definition is_directory (n : node) : bool :=
  match n with
  | Dir _ => true
  | File _ => false
  end.

(** ** More sample projects and folders *)

Module Cases.

(** A section in which an entry that is not a comment holds a string,
    between two entries that refer to records. *)
Definition broken_project : pbxProject :=
  mkProject
    [("1D6058940D05DD3E006BFB54", VRef 1%positive);
     ("1D6058940D05DD3E006BFB54_comment", VString "Debug");
     ("1D6058950D05DD3E006BFB54", VString "Release");
     ("C01FCF4F08A954540054247B", VRef 2%positive)]
    (<[1%positive := Sample.config (Some "7.1")]>
       (<[2%positive := Sample.config None]> ∅)).

(** [Sample.project] as the loop leaves it, and what the sample serializer
    prints for it. *)
Definition patched : pbxProject := (patch Version.compare Sample.project).2.

Definition patched_text : string :=
  Eval vm_compute in
    match Sample.writeSync patched with Ok text => text | Throw _ => "" end.

(** A parser that reads [patched_text] back as [patched], and any other
    content as [Sample.project]. *)
Definition parseSync (content : string) : result pbxProject :=
  if String.eqb content patched_text then Ok patched else Ok Sample.project.

(** The project file alone, with content that parses to [Sample.project]. *)
Definition old : world :=
  mkWorld (<[Sample.project_file := File "old"]> ∅) [].

(** A platform folder with one bundle and its project file. *)
Definition platform : world :=
  mkWorld (<["/app/platforms/ios/" := Dir ["App.xcodeproj"; "cordova"; "www"]]>
             (<[Sample.project_file := File "old"]> ∅)) [].



(** A platform folder in which an entry named [.xcodeproj] follows the
    bundle. *)
Definition hidden_bundle : world :=
  mkWorld (<["/app/platforms/ios/" :=
             Dir ["App.xcodeproj"; ".xcodeproj"; "www"]]> ∅) [].

End Cases.

(** * Properties *)

(** ** Suffixes *)

Lemma append_nil_l (s : string) : "" ++ s = s.
Proof. reflexivity. Qed.

Lemma append_cons (c : ascii) (a b : string) :
  String c a ++ b = String c (a ++ b).
Proof. reflexivity. Qed.

Lemma length_append (a b : string) :
  String.length (a ++ b) = (String.length a + String.length b)%nat.
Proof.
  induction a as [|c a IH]; [reflexivity|].
  rewrite append_cons. cbn [String.length]. now rewrite IH.
Qed.

Lemma cons_append_neq (c : ascii) (b suffix : string) :
  String c (b ++ suffix) <> suffix.
Proof.
  intros E. apply (f_equal String.length) in E.
  cbn [String.length] in E. rewrite length_append in E. lia.
Qed.

Lemma ends_with_append (b suffix : string) :
  ends_with suffix (b ++ suffix) = true.
Proof.
  induction b as [|c b IH].
  - rewrite append_nil_l. destruct suffix; cbn [ends_with];
      now rewrite String.eqb_refl.
  - rewrite append_cons. cbn [ends_with]. rewrite IH. apply orb_true_r.
Qed.

Lemma ends_with_inv (suffix s : string) :
  ends_with suffix s = true -> exists b, s = b ++ suffix.
Proof.
  induction s as [|c s IH]; cbn [ends_with]; intros H.
  - rewrite orb_false_r in H. apply String.eqb_eq in H. now exists "".
  - apply orb_true_iff in H as [H|H].
    + apply String.eqb_eq in H. now exists "".
    + destruct (IH H) as [b ->]. now exists (String c b).
Qed.

Lemma strip_suffix_append (b suffix : string) :
  strip_suffix suffix (b ++ suffix) = b.
Proof.
  induction b as [|c b IH].
  - rewrite append_nil_l. destruct suffix; cbn [strip_suffix];
      now rewrite String.eqb_refl.
  - rewrite append_cons. cbn [strip_suffix].
    destruct (String.eqb_spec (String c (b ++ suffix)) suffix) as [E|_].
    + now apply cons_append_neq in E.
    + now rewrite IH.
Qed.

Lemma basename_append (b ext : string) : basename (b ++ ext) ext = b.
Proof.
  unfold basename. rewrite ends_with_append. apply strip_suffix_append.
Qed.

(** ** Objects *)

Section ObjFacts.
Context {V : Type}.
Implicit Types (o : JS.obj V) (k : string) (v : V).

Lemma get_set_eq o k v : JS.get k (JS.set k v o) = Some v.
Proof.
  induction o as [|[k' v'] o IH]; cbn.
  - now rewrite String.eqb_refl.
  - destruct (String.eqb_spec k k') as [->|Hne]; cbn.
    + now rewrite String.eqb_refl.
    + apply String.eqb_neq in Hne. now rewrite Hne.
Qed.

Lemma get_set_ne o k k' v :
  k <> k' -> JS.get k' (JS.set k v o) = JS.get k' o.
Proof.
  intros Hne. induction o as [|[k0 v0] o IH]; cbn.
  - apply not_eq_sym, String.eqb_neq in Hne. now rewrite Hne.
  - destruct (String.eqb_spec k k0) as [->|Hk]; cbn.
    + apply not_eq_sym, String.eqb_neq in Hne. now rewrite Hne.
    + now rewrite IH.
Qed.

Lemma set_set o k v v' : JS.set k v (JS.set k v' o) = JS.set k v o.
Proof.
  induction o as [|[k0 v0] o IH]; cbn.
  - now rewrite String.eqb_refl.
  - destruct (String.eqb_spec k k0) as [->|Hk]; cbn.
    + now rewrite String.eqb_refl.
    + apply String.eqb_neq in Hk. now rewrite Hk, IH.
Qed.

Lemma get_None o k : JS.get k o = None <-> k ∉ JS.keys o.
Proof.
  unfold JS.keys. induction o as [|[k0 v0] o IH]; cbn.
  - split; [intros _; apply not_elem_of_nil | reflexivity].
  - rewrite not_elem_of_cons.
    destruct (String.eqb_spec k k0) as [->|Hk].
    + split; [discriminate | intros [? _]; congruence].
    + rewrite IH. tauto.
Qed.

Lemma get_is_Some o k : is_Some (JS.get k o) <-> k ∈ JS.keys o.
Proof.
  rewrite <- not_eq_None_Some, get_None.
  destruct (decide (k ∈ JS.keys o)); tauto.
Qed.

Lemma keys_set_fresh o k v :
  k ∉ JS.keys o -> JS.keys (JS.set k v o) = (JS.keys o ++ [k])%list.
Proof.
  unfold JS.keys. induction o as [|[k0 v0] o IH]; cbn; [reflexivity|].
  rewrite not_elem_of_cons. intros [Hk Ho].
  apply String.eqb_neq in Hk. rewrite Hk. cbn. now rewrite (IH Ho).
Qed.

Lemma keys_set_old o k v :
  k ∈ JS.keys o -> JS.keys (JS.set k v o) = JS.keys o.
Proof.
  unfold JS.keys. induction o as [|[k0 v0] o IH]; cbn.
  - intros H. now apply elem_of_nil in H.
  - destruct (String.eqb_spec k k0) as [->|Hk]; cbn; [reflexivity|].
    rewrite elem_of_cons. intros [?|H]; [congruence|]. now rewrite (IH H).
Qed.

Lemma elem_of_keys_set o k k' v :
  k' ∈ JS.keys (JS.set k v o) <-> k' = k \/ k' ∈ JS.keys o.
Proof.
  destruct (decide (k ∈ JS.keys o)) as [Hin|Hout].
  - rewrite (keys_set_old _ _ _ Hin). split; [tauto|].
    intros [->|?]; assumption.
  - rewrite (keys_set_fresh _ _ _ Hout), elem_of_app, list_elem_of_singleton.
    tauto.
Qed.

End ObjFacts.

(** ** nonComments *)

Lemma get_nonComments_loop (keys : list string) (obj acc : JS.obj value)
    (k : string) :
  JS.get k (nonComments_loop keys obj acc) =
  if decide (k ∈ keys /\ COMMENT_KEY k = false)
  then Some (index obj k) else JS.get k acc.
Proof.
  revert acc. induction keys as [|k0 keys IH]; intros acc; cbn [nonComments_loop].
  - case_decide as H; [|reflexivity]. destruct H as [H _].
    now apply elem_of_nil in H.
  - rewrite IH. destruct (decide (k ∈ keys /\ COMMENT_KEY k = false)) as [H|H].
    + rewrite decide_True; [reflexivity|]. split; [|tauto].
      apply elem_of_cons. tauto.
    + destruct (decide (k = k0)) as [->|Hk].
      * destruct (COMMENT_KEY k0) eqn:Hc.
        -- rewrite decide_False; [reflexivity|]. intros [_ ?]. congruence.
        -- rewrite decide_True, get_set_eq; [reflexivity|].
           split; [apply elem_of_cons; tauto | reflexivity].
      * rewrite decide_False.
        -- destruct (COMMENT_KEY k0); [reflexivity|].
           now apply get_set_ne, not_eq_sym.
        -- rewrite elem_of_cons. tauto.
Qed.

(** Reading the filtered object: a comment key reads [undefined], any other
    key reads what the section holds. *)
Lemma get_nonComments (obj : JS.obj value) (k : string) :
  JS.get k (nonComments obj) =
  if COMMENT_KEY k then None else JS.get k obj.
Proof.
  unfold nonComments. rewrite get_nonComments_loop. cbn [JS.get].
  destruct (COMMENT_KEY k) eqn:Hc.
  - rewrite decide_False; [reflexivity|]. intros [_ ?]. congruence.
  - destruct (decide (k ∈ JS.keys obj)) as [Hin|Hout].
    + rewrite decide_True by tauto. unfold index.
      apply get_is_Some in Hin as [v ->]. reflexivity.
    + rewrite decide_False by tauto. symmetry. now apply get_None.
Qed.

Lemma elem_of_keys_nonComments (obj : JS.obj value) (k : string) :
  k ∈ JS.keys (nonComments obj) <-> k ∈ JS.keys obj /\ COMMENT_KEY k = false.
Proof.
  rewrite <- !get_is_Some, get_nonComments.
  destruct (COMMENT_KEY k).
  - split; [intros [? ?]; discriminate | intros [_ ?]; discriminate].
  - tauto.
Qed.

Lemma index_nonComments (obj : JS.obj value) (k : string) :
  COMMENT_KEY k = false -> index (nonComments obj) k = index obj k.
Proof. intros H. unfold index. now rewrite get_nonComments, H. Qed.

Lemma keys_nonComments_loop (keys : list string) (obj acc : JS.obj value) :
  NoDup (JS.keys acc ++ keys)%list ->
  JS.keys (nonComments_loop keys obj acc) =
  (JS.keys acc ++ filter (fun k => COMMENT_KEY k = false) keys)%list.
Proof.
  revert acc. induction keys as [|k0 keys IH]; intros acc Hnd;
    cbn [nonComments_loop].
  - now rewrite filter_nil, app_nil_r.
  - rewrite filter_cons. apply NoDup_app in Hnd as (Hacc & Hdisj & Hkeys).
    apply NoDup_cons in Hkeys as [Hk0 Hkeys].
    assert (Hfresh : k0 ∉ JS.keys acc).
    { intros Hin. apply (Hdisj _ Hin), elem_of_cons. tauto. }
    destruct (COMMENT_KEY k0) eqn:Hc.
    + rewrite decide_False by congruence. apply IH.
      apply NoDup_app. split_and!; [assumption| |assumption].
      intros x Hx Hx'. apply (Hdisj _ Hx), elem_of_cons. tauto.
    + rewrite decide_True by reflexivity. rewrite IH.
      * rewrite (keys_set_fresh _ _ _ Hfresh), <- app_assoc. reflexivity.
      * rewrite (keys_set_fresh _ _ _ Hfresh), <- app_assoc. cbn.
        apply NoDup_app. split_and!; [assumption| |now apply NoDup_cons].
        intros x Hx. apply (Hdisj _ Hx).
Qed.

(** On an object (no key twice) [nonComments] keeps the keys that do not end
    in [_comment], in their order. *)
Lemma keys_nonComments (obj : JS.obj value) :
  NoDup (JS.keys obj) ->
  JS.keys (nonComments obj) =
  filter (fun k => COMMENT_KEY k = false) (JS.keys obj).
Proof. intros H. unfold nonComments. now rewrite keys_nonComments_loop. Qed.

Lemma nonComments_loop_ext (keys : list string) (obj obj' acc : JS.obj value) :
  (forall k, k ∈ keys -> COMMENT_KEY k = false -> index obj k = index obj' k) ->
  nonComments_loop keys obj acc = nonComments_loop keys obj' acc.
Proof.
  revert acc. induction keys as [|k0 keys IH]; intros acc Hext; [reflexivity|].
  cbn [nonComments_loop]. rewrite IH.
  - destruct (COMMENT_KEY k0) eqn:Hc; [reflexivity|].
    rewrite (Hext k0); [reflexivity|apply elem_of_cons; tauto|assumption].
  - intros k Hin. apply Hext, elem_of_cons. tauto.
Qed.

Lemma nonComments_loop_app (keys keys' : list string) (obj acc : JS.obj value) :
  nonComments_loop (keys ++ keys') obj acc =
  nonComments_loop keys' obj (nonComments_loop keys obj acc).
Proof.
  revert acc. induction keys as [|k0 keys IH]; intros acc; [reflexivity|].
  cbn [nonComments_loop app]. apply IH.
Qed.

(** What a comment entry holds, and whether it is there at all, makes no
    difference to the filtered object. *)
Lemma nonComments_set_comment (obj : JS.obj value) (k : string) (v : value) :
  COMMENT_KEY k = true -> nonComments (JS.set k v obj) = nonComments obj.
Proof.
  intros Hc. unfold nonComments.
  assert (Hkeys : forall acc,
             nonComments_loop (JS.keys (JS.set k v obj)) obj acc =
             nonComments_loop (JS.keys obj) obj acc).
  { intros acc. destruct (decide (k ∈ JS.keys obj)) as [Hin|Hout].
    - now rewrite (keys_set_old _ _ _ Hin).
    - rewrite (keys_set_fresh _ _ _ Hout), nonComments_loop_app.
      cbn [nonComments_loop]. now rewrite Hc. }
  rewrite <- Hkeys. apply nonComments_loop_ext. intros k' _ Hc'.
  unfold index. rewrite get_set_ne; [reflexivity|]. congruence.
Qed.

(** ** The loop over the configurations *)

Section LoopFacts.
Variable compare : string -> string -> Z.
Implicit Types (objs : gmap loc XCBuildConfiguration) (r : XCBuildConfiguration).

Lemma deployment_target_raised r :
  deployment_target (raised r) = Some IOS_DEPLOYMENT_TARGET.
Proof. unfold deployment_target, raised. cbn. apply get_set_eq. Qed.

Lemma raised_raised r : raised (raised r) = raised r.
Proof. unfold raised, with_buildSettings. cbn. now rewrite set_set. Qed.

Lemma settle_idem r : settle compare (settle compare r) = settle compare r.
Proof.
  unfold settle. destruct (must_raise compare r) eqn:H.
  - destruct (must_raise compare (raised r)); [apply raised_raised | reflexivity].
  - now rewrite H.
Qed.

Lemma must_raise_settle r :
  must_raise compare (settle compare r) = true -> must_raise compare r = true.
Proof. unfold settle. destruct (must_raise compare r) eqn:H; congruence. Qed.

(** One pass of the loop body on a key that refers to a record object. *)
Lemma loop_body_record configurations config u objs l r :
  index configurations config = VRef l ->
  objs !! l = Some r ->
  loop_body compare configurations config u objs =
  (Ok (u || must_raise compare r), <[l := settle compare r]> objs).
Proof.
  intros Hi Hl. unfold loop_body, settle, must_raise, bind, get_state.
  rewrite Hi, Hl. fold (deployment_target r).
  destruct (JS.truthy (deployment_target r)).
  - destruct (compare _ _ =? -1).
    + now rewrite orb_true_r.
    + now rewrite orb_false_r, insert_id.
  - now rewrite orb_true_r.
Qed.

Lemma for_in_spec configurations keys :
  forall u objs,
    Forall (live configurations objs) keys ->
    exists u' objs',
      for_in compare keys configurations u objs = (Ok u', objs') /\
      (forall l, objs' !! l =
                 if decide (l ∈ refs configurations keys)
                 then settle compare <$> objs !! l else objs !! l) /\
      (u' = true <->
       u = true \/
       exists l r, l ∈ refs configurations keys /\ objs !! l = Some r /\
                   must_raise compare r = true).
Proof.
  induction keys as [|k keys IH]; intros u objs Hlive.
  - exists u, objs. split_and!; [reflexivity|intros l; reflexivity|].
    split; [tauto|]. intros [?|(l & r & Hin & _)]; [assumption|].
    now apply elem_of_nil in Hin.
  - apply Forall_cons in Hlive as [(l0 & Hk & [r0 Hr0]) Hlive].
    cbn [for_in]. unfold bind at 1.
    rewrite (loop_body_record _ _ _ _ _ _ Hk Hr0).
    destruct (IH (u || must_raise compare r0) (<[l0 := settle compare r0]> objs))
      as (u' & objs' & Hrun & Hlook & Hflag).
    { eapply Forall_impl; [exact Hlive|]. intros k' (l' & Hk' & Hsome).
      exists l'. split; [assumption|].
      apply lookup_insert_is_Some. destruct (decide (l0 = l')); tauto. }
    exists u', objs'. split; [exact Hrun|].
    assert (Hrefs : refs configurations (k :: keys) = l0 :: refs configurations keys).
    { unfold refs. cbn. now rewrite Hk. }
    rewrite Hrefs. split.
    + intros l. rewrite Hlook. destruct (decide (l = l0)) as [->|Hne].
      * rewrite lookup_insert_eq, Hr0, (decide_True (P := l0 ∈ l0 :: _))
          by (apply elem_of_cons; tauto).
        cbn. rewrite settle_idem. now case_decide.
      * rewrite lookup_insert_ne by congruence.
        destruct (decide (l ∈ refs configurations keys)) as [Hin|Hout].
        -- rewrite decide_True; [reflexivity|]. apply elem_of_cons. tauto.
        -- rewrite decide_False; [reflexivity|]. rewrite elem_of_cons. tauto.
    + rewrite Hflag, orb_true_iff. split.
      * intros [[Hu|Hm]|(l & r & Hin & Hl & Hm)].
        -- tauto.
        -- right. exists l0, r0. split_and!; try assumption.
           apply elem_of_cons. tauto.
        -- right. destruct (decide (l = l0)) as [->|Hne].
           ++ rewrite lookup_insert_eq in Hl. injection Hl as <-.
              exists l0, r0. split_and!; [apply elem_of_cons; tauto|assumption|].
              now apply must_raise_settle.
           ++ rewrite lookup_insert_ne in Hl by congruence.
              exists l, r. split_and!; try assumption. apply elem_of_cons. tauto.
      * intros [Hu|(l & r & Hin & Hl & Hm)]; [tauto|].
        apply elem_of_cons in Hin as [->|Hin].
        -- left. right. congruence.
        -- destruct (decide (l = l0)) as [->|Hne].
           ++ left. right. congruence.
           ++ right. exists l, r. split_and!; try assumption.
              now rewrite lookup_insert_ne by congruence.
Qed.

End LoopFacts.

(** ** The loop on a parsed project *)

Section PatchFacts.
Variable compare : string -> string -> Z.
Implicit Types (pbx : pbxProject) (r : XCBuildConfiguration) (k : string).

Lemma elem_of_refs (configurations : JS.obj value) (keys : list string) (l : loc) :
  l ∈ refs configurations keys <->
  exists k, k ∈ keys /\ index configurations k = VRef l.
Proof.
  unfold refs. rewrite list_elem_of_omap. split.
  - intros (k & Hin & Hk). exists k. split; [assumption|].
    destruct (index configurations k); congruence.
  - intros (k & Hin & Hk). exists k. split; [assumption|]. now rewrite Hk.
Qed.

(** The locations the loop visits are those of the non-comment entries. *)
Lemma elem_of_refs_nonComments (section : JS.obj value) (l : loc) :
  l ∈ refs (nonComments section) (JS.keys (nonComments section)) <->
  exists k, k ∈ JS.keys section /\ COMMENT_KEY k = false /\
            index section k = VRef l.
Proof.
  rewrite elem_of_refs. split.
  - intros (k & Hin & Hk). apply elem_of_keys_nonComments in Hin as [Hin Hc].
    exists k. split_and!; try assumption. now rewrite <- index_nonComments.
  - intros (k & Hin & Hc & Hk). exists k. split.
    + now apply elem_of_keys_nonComments.
    + now rewrite index_nonComments.
Qed.

Lemma well_formed_record pbx k :
  well_formed pbx = true ->
  k ∈ JS.keys (pbxXCBuildConfigurationSection pbx) ->
  COMMENT_KEY k = false ->
  exists l r, index (pbxXCBuildConfigurationSection pbx) k = VRef l /\
              objects pbx !! l = Some r.
Proof.
  unfold well_formed. rewrite forallb_forall. intros Hwf Hin Hc.
  specialize (Hwf k). rewrite <- list_elem_of_In in Hwf.
  specialize (Hwf Hin). rewrite Hc in Hwf. cbn in Hwf. unfold record_at in Hwf.
  destruct (index _ k) as [| |l]; try discriminate.
  destruct (objects pbx !! l) as [r|] eqn:Hr; [|discriminate]. eauto.
Qed.

Lemma well_formed_live pbx :
  well_formed pbx = true ->
  Forall (live (nonComments (pbxXCBuildConfigurationSection pbx)) (objects pbx))
         (JS.keys (nonComments (pbxXCBuildConfigurationSection pbx))).
Proof.
  intros Hwf. apply Forall_forall. intros k Hin.
  apply elem_of_keys_nonComments in Hin as [Hin Hc].
  destruct (well_formed_record _ _ Hwf Hin Hc) as (l & r & Hk & Hr).
  exists l. rewrite index_nonComments by assumption. eauto.
Qed.

(** On a well-formed project the loop does not throw; it leaves [settle r]
    where a non-comment entry refers to [r], nothing else changes, and the
    flag tells whether some record had to be raised. *)
Lemma patch_spec pbx :
  well_formed pbx = true ->
  exists u pbx',
    patch compare pbx = (Ok u, pbx') /\
    pbxXCBuildConfigurationSection pbx' = pbxXCBuildConfigurationSection pbx /\
    (forall k r,
        k ∈ JS.keys (pbxXCBuildConfigurationSection pbx) ->
        COMMENT_KEY k = false ->
        record_at pbx k = Some r ->
        record_at pbx' k = Some (settle compare r)) /\
    (forall l,
        (forall k, k ∈ JS.keys (pbxXCBuildConfigurationSection pbx) ->
                   COMMENT_KEY k = false ->
                   index (pbxXCBuildConfigurationSection pbx) k <> VRef l) ->
        objects pbx' !! l = objects pbx !! l) /\
    (u = true <->
     exists k r, k ∈ JS.keys (pbxXCBuildConfigurationSection pbx) /\
                 COMMENT_KEY k = false /\
                 record_at pbx k = Some r /\ must_raise compare r = true).
Proof.
  intros Hwf. unfold patch.
  destruct (for_in_spec compare _ _ false _ (well_formed_live _ Hwf))
    as (u & objs' & Hrun & Hlook & Hflag).
  rewrite Hrun. exists u, (mkProject (pbxXCBuildConfigurationSection pbx) objs').
  split_and!; [reflexivity|reflexivity| | |].
  - intros k r Hin Hc Hr. unfold record_at in *.
    cbn [objects pbxXCBuildConfigurationSection].
    destruct (index _ k) as [| |l] eqn:Hk; try discriminate.
    rewrite Hlook, decide_True, Hr; [reflexivity|].
    apply elem_of_refs_nonComments. eauto.
  - intros l Hl. cbn [objects]. rewrite Hlook, decide_False; [reflexivity|].
    rewrite elem_of_refs_nonComments. intros (k & Hin & Hc & Hk).
    exact (Hl k Hin Hc Hk).
  - rewrite Hflag. split.
    + intros [?|(l & r & Hin & Hr & Hm)]; [discriminate|].
      apply elem_of_refs_nonComments in Hin as (k & Hin & Hc & Hk).
      exists k, r. unfold record_at. now rewrite Hk.
    + intros (k & r & Hin & Hc & Hr & Hm). right. unfold record_at in Hr.
      destruct (index _ k) as [| |l] eqn:Hk; try discriminate.
      exists l, r. split_and!; try assumption.
      apply elem_of_refs_nonComments. eauto.
Qed.

(** The two outcomes of [settle], in terms of the setting and the
    comparator. *)
Lemma settle_raises r :
  deployment_target r = None \/
  deployment_target r = Some "" \/
  (exists v, deployment_target r = Some v /\ compare v IOS_DEPLOYMENT_TARGET = -1) ->
  settle compare r = raised r.
Proof.
  unfold settle, must_raise. intros [H|[H|(v & H & Hv)]]; rewrite H; cbn.
  - reflexivity.
  - reflexivity.
  - rewrite Hv. cbn. now destruct (negb (v =? "")%string).
Qed.

Lemma settle_keeps r v :
  deployment_target r = Some v -> v <> "" ->
  compare v IOS_DEPLOYMENT_TARGET <> -1 ->
  settle compare r = r.
Proof.
  unfold settle, must_raise. intros H Hv Hc. rewrite H. cbn.
  apply String.eqb_neq in Hv. rewrite Hv. cbn.
  apply Z.eqb_neq in Hc. now rewrite Hc.
Qed.

Lemma must_raise_false r :
  must_raise compare r = false <->
  exists v, deployment_target r = Some v /\ v <> "" /\
            compare v IOS_DEPLOYMENT_TARGET <> -1.
Proof.
  unfold must_raise. destruct (deployment_target r) as [v|]; cbn.
  - destruct (String.eqb_spec v "") as [->|Hv]; cbn.
    + split; [discriminate|]. intros (v & Hv & Hne & _). congruence.
    + rewrite Z.eqb_neq. split.
      * intros H. eauto.
      * intros (v' & Hv' & _ & H). congruence.
  - split; [discriminate|]. intros (v & Hv & _). discriminate.
Qed.

Lemma up_to_date_spec pbx :
  up_to_date compare pbx = true ->
  forall k r,
    k ∈ JS.keys (pbxXCBuildConfigurationSection pbx) ->
    COMMENT_KEY k = false ->
    record_at pbx k = Some r ->
    exists v, deployment_target r = Some v /\ v <> "" /\
              compare v IOS_DEPLOYMENT_TARGET <> -1.
Proof.
  unfold up_to_date. rewrite forallb_forall. intros Hall k r Hin Hc Hr.
  apply list_elem_of_In in Hin. specialize (Hall k Hin).
  rewrite Hc, Hr in Hall. cbn in Hall. apply negb_true_iff in Hall.
  now apply must_raise_false.
Qed.

(** A project in which no record has to be raised comes out of the loop as
    it went in, with the flag unset. *)
Lemma patch_nothing_to_raise pbx :
  well_formed pbx = true ->
  (forall k r, k ∈ JS.keys (pbxXCBuildConfigurationSection pbx) ->
               COMMENT_KEY k = false ->
               record_at pbx k = Some r -> must_raise compare r = false) ->
  patch compare pbx = (Ok false, pbx).
Proof.
  intros Hwf Hall.
  destruct (patch_spec _ Hwf) as (u & pbx' & Hrun & Hsec & Hrec & Hframe & Hflag).
  rewrite Hrun. f_equal.
  - destruct u; [|reflexivity]. destruct Hflag as [Hflag _].
    destruct (Hflag eq_refl) as (k & r & Hin & Hc & Hr & Hm).
    rewrite (Hall k r Hin Hc Hr) in Hm. discriminate.
  - destruct pbx as [section objs], pbx' as [section' objs'].
    cbn [objects pbxXCBuildConfigurationSection] in *. subst section'. f_equal. apply map_eq. intros l.
    destruct (decide (l ∈ refs (nonComments section) (JS.keys (nonComments section))))
      as [Hin|Hout].
    + apply elem_of_refs_nonComments in Hin as (k & Hin & Hc & Hk).
      destruct (well_formed_record _ _ Hwf Hin Hc) as (l' & r & Hk' & Hr).
      cbn [objects pbxXCBuildConfigurationSection] in Hk', Hr.
      rewrite Hk in Hk'. injection Hk' as <-.
      assert (Hat : record_at (mkProject section objs) k = Some r).
      { unfold record_at. cbn [objects pbxXCBuildConfigurationSection].
        now rewrite Hk. }
      specialize (Hrec k r Hin Hc Hat). unfold record_at in Hrec.
      cbn [objects pbxXCBuildConfigurationSection] in Hrec.
      rewrite Hk in Hrec. rewrite Hrec, Hr. f_equal.
      unfold settle. now rewrite (Hall k r Hin Hc Hat).
    + apply Hframe. intros k Hin Hc Hk. apply Hout.
      apply elem_of_refs_nonComments. eauto.
Qed.

End PatchFacts.

(** ** What the loop cannot touch *)

Section FrameFacts.
Variable compare : string -> string -> Z.

Lemma loop_body_frame configurations config u
    (objs : gmap loc XCBuildConfiguration) (l : loc) :
  index configurations config <> VRef l ->
  (loop_body compare configurations config u objs).2 !! l = objs !! l.
Proof.
  intros Hne. unfold loop_body, bind, get_state, set_deployment_target, modify.
  destruct (index configurations config) as [| |l0]; try reflexivity.
  assert (l0 <> l) by congruence.
  destruct (objs !! l0) as [r|]; [|reflexivity].
  destruct (JS.truthy _); [destruct (compare _ _ =? -1)|]; cbn [snd ret];
    try reflexivity; now apply lookup_insert_ne.
Qed.

Lemma for_in_frame configurations keys (l : loc) :
  forall u (objs : gmap loc XCBuildConfiguration),
    l ∉ refs configurations keys ->
    (for_in compare keys configurations u objs).2 !! l = objs !! l.
Proof.
  induction keys as [|k keys IH]; intros u objs Hout; [reflexivity|].
  assert (Hk : index configurations k <> VRef l).
  { intros Hk. apply Hout, elem_of_refs. exists k. split; [|assumption].
    apply elem_of_cons. tauto. }
  assert (Hrest : l ∉ refs configurations keys).
  { intros Hin. apply Hout. apply elem_of_refs in Hin as (k' & Hin & Hk').
    apply elem_of_refs. exists k'. split; [|assumption].
    apply elem_of_cons. tauto. }
  cbn [for_in]. unfold bind at 1.
  pose proof (loop_body_frame configurations k u objs l Hk) as Hstep.
  destruct (loop_body compare configurations k u objs) as [[u1|e] objs1];
    cbn [snd] in *.
  - now rewrite IH.
  - exact Hstep.
Qed.

(** Whether or not the loop throws, the section object is the one it was,
    and a record object that no non-comment entry refers to is as it was. *)
Lemma patch_frame (pbx : pbxProject) :
  pbxXCBuildConfigurationSection (patch compare pbx).2 =
  pbxXCBuildConfigurationSection pbx /\
  forall l,
    (forall k, k ∈ JS.keys (pbxXCBuildConfigurationSection pbx) ->
               COMMENT_KEY k = false ->
               index (pbxXCBuildConfigurationSection pbx) k <> VRef l) ->
    objects (patch compare pbx).2 !! l = objects pbx !! l.
Proof.
  unfold patch.
  set (configurations := nonComments (pbxXCBuildConfigurationSection pbx)).
  pose proof (for_in_frame configurations (JS.keys configurations)) as Hframe.
  destruct (for_in compare _ _ _ _) as [res objs'] eqn:Hrun.
  split; [reflexivity|]. intros l Hl. cbn [snd objects].
  specialize (Hframe l false (objects pbx)).
  setoid_rewrite Hrun in Hframe. apply Hframe.
  unfold configurations. rewrite elem_of_refs_nonComments.
  intros (k & Hin & Hc & Hk). exact (Hl k Hin Hc Hk).
Qed.

End FrameFacts.

(** ** The comparator of the spec is a strict ordering *)

Lemma sign_cases (a : list N) : Version.sign a = 0 \/ Version.sign a = 1.
Proof.
  induction a as [|x a IH]; cbn; [tauto|]. destruct (0 <? x)%N; tauto.
Qed.

Lemma compare_segments_refl (a : list N) : Version.compare_segments a a = 0.
Proof.
  induction a as [|x a IH]; cbn; [reflexivity|]. now rewrite N.compare_refl.
Qed.

Lemma compare_segments_nil_r (a : list N) :
  Version.compare_segments a [] = Version.sign a.
Proof. destruct a; reflexivity. Qed.

Lemma compare_segments_asym (a b : list N) :
  Version.compare_segments a b = -1 -> Version.compare_segments b a = 1.
Proof.
  revert b. induction a as [|x a IH]; intros b.
  - cbn [Version.compare_segments]. rewrite compare_segments_nil_r. lia.
  - destruct b as [|y b]; cbn [Version.compare_segments].
    + destruct (sign_cases (x :: a)); lia.
    + rewrite (N.compare_antisym x y).
      destruct (x ?= y)%N; cbn [CompOpp]; [apply IH|reflexivity|discriminate].
Qed.

Lemma version_compare_irrefl (v : string) : Version.compare v v <> -1.
Proof. unfold Version.compare. now rewrite compare_segments_refl. Qed.

Lemma version_compare_asym (v1 v2 : string) :
  Version.compare v1 v2 = -1 -> Version.compare v2 v1 <> -1.
Proof.
  unfold Version.compare. intros H.
  now rewrite (compare_segments_asym _ _ H).
Qed.

(** ** The deployment target after the loop *)

Section PatchClaims.
Variable compare : string -> string -> Z.
Implicit Types (pbx : pbxProject) (r : XCBuildConfiguration) (k : string).

(** C1. After one run of the loop every record of a non-comment entry has the
    deployment target set: it is the threshold when the setting was absent
    (for the code: falsy, so missing or the empty string) or compared
    strictly below the threshold, and the record is exactly as it was
    otherwise. The loop itself does not throw on a parsed project. *)
Theorem patch_sets_threshold_or_keeps pbx :
  well_formed pbx = true ->
  exists updated pbx',
    patch compare pbx = (Ok updated, pbx') /\
    forall k r,
      k ∈ JS.keys (pbxXCBuildConfigurationSection pbx) ->
      COMMENT_KEY k = false ->
      record_at pbx k = Some r ->
      exists r',
        record_at pbx' k = Some r' /\
        (deployment_target r = None \/
         deployment_target r = Some "" \/
         (exists v, deployment_target r = Some v /\
                    compare v IOS_DEPLOYMENT_TARGET = -1) ->
         deployment_target r' = Some IOS_DEPLOYMENT_TARGET) /\
        (forall v, deployment_target r = Some v -> v <> "" ->
                   compare v IOS_DEPLOYMENT_TARGET <> -1 ->
                   r' = r /\ deployment_target r' = Some v).
Proof.
  intros Hwf.
  destruct (patch_spec compare _ Hwf) as (u & pbx' & Hrun & _ & Hrec & _).
  exists u, pbx'. split; [exact Hrun|]. intros k r Hin Hc Hr.
  exists (settle compare r). split_and!.
  - now apply Hrec.
  - intros Hlow. rewrite (settle_raises compare r Hlow).
    apply deployment_target_raised.
  - intros v Hv Hne Hge. rewrite (settle_keeps compare r v Hv Hne Hge). tauto.
Qed.

(** C10. The threshold is the constant "8.0": a record that the loop changes
    comes out with the deployment target "8.0" (not "9.0"), and so does
    every record whose setting was absent or below. *)
Theorem updated_records_get_8_0 pbx :
  well_formed pbx = true ->
  IOS_DEPLOYMENT_TARGET = "8.0" /\
  exists updated pbx',
    patch compare pbx = (Ok updated, pbx') /\
    forall k r r',
      k ∈ JS.keys (pbxXCBuildConfigurationSection pbx) ->
      COMMENT_KEY k = false ->
      record_at pbx k = Some r ->
      record_at pbx' k = Some r' ->
      (r' <> r -> deployment_target r' = Some "8.0") /\
      (must_raise compare r = true -> deployment_target r' = Some "8.0").
Proof.
  intros Hwf. split; [reflexivity|].
  destruct (patch_spec compare _ Hwf) as (u & pbx' & Hrun & _ & Hrec & _).
  exists u, pbx'. split; [exact Hrun|]. intros k r r' Hin Hc Hr Hr'.
  rewrite (Hrec k r Hin Hc Hr) in Hr'. injection Hr' as <-.
  unfold settle. destruct (must_raise compare r).
  - split; intros _; apply deployment_target_raised.
  - split; [congruence|discriminate].
Qed.

(** C9. The loop is idempotent, for a comparator that does not put the
    threshold strictly below itself: run on its own result it returns the
    same project and leaves the flag unset. *)
Theorem patch_idempotent pbx :
  compare IOS_DEPLOYMENT_TARGET IOS_DEPLOYMENT_TARGET <> -1 ->
  well_formed pbx = true ->
  exists updated pbx',
    patch compare pbx = (Ok updated, pbx') /\
    patch compare pbx' = (Ok false, pbx').
Proof.
  intros Hrefl Hwf.
  destruct (patch_spec compare _ Hwf)
    as (u & pbx' & Hrun & Hsec & Hrec & _ & _).
  exists u, pbx'. split; [exact Hrun|].
  assert (Hsettled : forall k, k ∈ JS.keys (pbxXCBuildConfigurationSection pbx) ->
            COMMENT_KEY k = false ->
            exists r, record_at pbx k = Some r /\
                      record_at pbx' k = Some (settle compare r)).
  { intros k Hin Hc.
    destruct (well_formed_record _ _ Hwf Hin Hc) as (l & r & Hk & Hl).
    assert (Hr : record_at pbx k = Some r) by (unfold record_at; now rewrite Hk).
    exists r. split; [exact Hr|]. now apply Hrec. }
  apply patch_nothing_to_raise.
  - unfold well_formed. apply forallb_forall. intros k Hin.
    apply list_elem_of_In in Hin. rewrite Hsec in Hin.
    destruct (COMMENT_KEY k) eqn:Hc; [reflexivity|]. cbn.
    destruct (Hsettled k Hin Hc) as (r & _ & ->). reflexivity.
  - intros k r' Hin Hc Hr'. rewrite Hsec in Hin.
    destruct (Hsettled k Hin Hc) as (r & _ & Hs). rewrite Hs in Hr'.
    injection Hr' as <-. unfold settle.
    destruct (must_raise compare r) eqn:Hm; [|exact Hm].
    apply must_raise_false. exists IOS_DEPLOYMENT_TARGET.
    split_and!; [apply deployment_target_raised|discriminate|exact Hrefl].
Qed.

(** C4. The entries whose key ends in [_comment] are left out before the
    iteration and the others are kept: the filtered object reads [undefined]
    at a comment key and the section's value at any other key, and its keys
    are the other keys in their order. The loop, whether it throws or not,
    leaves the section object as it was, so every comment entry holds the
    value it held, and it changes no record object that only comment entries
    refer to. Whatever a comment entry holds, the flag and the record
    objects after the loop are the same. *)
Theorem comment_entries_untouched pbx :
  (forall k, COMMENT_KEY k = true <-> exists b, k = b ++ "_comment") /\
  (forall k, COMMENT_KEY k = true ->
             JS.get k (nonComments (pbxXCBuildConfigurationSection pbx)) = None /\
             k ∉ JS.keys (nonComments (pbxXCBuildConfigurationSection pbx))) /\
  (forall k, COMMENT_KEY k = false ->
             JS.get k (nonComments (pbxXCBuildConfigurationSection pbx)) =
             JS.get k (pbxXCBuildConfigurationSection pbx)) /\
  (NoDup (JS.keys (pbxXCBuildConfigurationSection pbx)) ->
   JS.keys (nonComments (pbxXCBuildConfigurationSection pbx)) =
   filter (fun k => COMMENT_KEY k = false)
          (JS.keys (pbxXCBuildConfigurationSection pbx))) /\
  (forall k, JS.get k (pbxXCBuildConfigurationSection (patch compare pbx).2) =
             JS.get k (pbxXCBuildConfigurationSection pbx)) /\
  (forall l,
      (forall k, k ∈ JS.keys (pbxXCBuildConfigurationSection pbx) ->
                 COMMENT_KEY k = false ->
                 index (pbxXCBuildConfigurationSection pbx) k <> VRef l) ->
      objects (patch compare pbx).2 !! l = objects pbx !! l) /\
  (forall k v,
      COMMENT_KEY k = true ->
      let pbx_v := mkProject (JS.set k v (pbxXCBuildConfigurationSection pbx))
                             (objects pbx) in
      (patch compare pbx_v).1 = (patch compare pbx).1 /\
      objects (patch compare pbx_v).2 = objects (patch compare pbx).2).
Proof.
  split_and!.
  - intros k. unfold COMMENT_KEY. split.
    + apply ends_with_inv.
    + intros [b ->]. apply ends_with_append.
  - intros k Hc. split.
    + now rewrite get_nonComments, Hc.
    + rewrite elem_of_keys_nonComments. intros [_ ?]. congruence.
  - intros k Hc. now rewrite get_nonComments, Hc.
  - apply keys_nonComments.
  - intros k. now rewrite (proj1 (patch_frame compare pbx)).
  - apply (proj2 (patch_frame compare pbx)).
  - intros k v Hc pbx_v. unfold patch, pbx_v.
    cbn [pbxXCBuildConfigurationSection objects].
    rewrite (nonComments_set_comment _ _ _ Hc).
    now destruct (for_in compare _ _ _ _).
Qed.

Section VersionOrdering.
(** What makes [compare] a version ordering: nothing is strictly below
    itself, and two versions are not strictly below each other. *)
Hypothesis compare_irrefl : forall v, compare v v <> -1.
Hypothesis compare_asym :
  forall v1 v2, compare v1 v2 = -1 -> compare v2 v1 <> -1.

(** C2. The loop never lowers a deployment target. The record of a
    non-comment entry comes out either with the threshold, its setting
    having been unset (falsy) or strictly below the threshold, or exactly as
    it was, its setting being a version not below the threshold; and the new
    value is never strictly below the version it replaces. *)
Theorem patch_never_lowers pbx :
  well_formed pbx = true ->
  exists updated pbx',
    patch compare pbx = (Ok updated, pbx') /\
    forall k r,
      k ∈ JS.keys (pbxXCBuildConfigurationSection pbx) ->
      COMMENT_KEY k = false ->
      record_at pbx k = Some r ->
      exists r',
        record_at pbx' k = Some r' /\
        ((deployment_target r' = Some IOS_DEPLOYMENT_TARGET /\
          (JS.truthy (deployment_target r) = false \/
           exists v, deployment_target r = Some v /\
                     compare v IOS_DEPLOYMENT_TARGET = -1))
         \/
         (r' = r /\
          exists v, deployment_target r = Some v /\ v <> "" /\
                    compare v IOS_DEPLOYMENT_TARGET <> -1)) /\
        (forall v v', deployment_target r = Some v -> v <> "" ->
                      deployment_target r' = Some v' ->
                      compare v' v <> -1).
Proof.
  intros Hwf.
  destruct (patch_spec compare _ Hwf) as (u & pbx' & Hrun & _ & Hrec & _).
  exists u, pbx'. split; [exact Hrun|]. intros k r Hin Hc Hr.
  exists (settle compare r). split; [now apply Hrec|].
  unfold settle. destruct (must_raise compare r) eqn:Hm.
  - assert (Hwhy : JS.truthy (deployment_target r) = false \/
                   exists v, deployment_target r = Some v /\
                             compare v IOS_DEPLOYMENT_TARGET = -1).
    { unfold must_raise in Hm. destruct (JS.truthy (deployment_target r)) eqn:Ht;
        [right|now left].
      destruct (deployment_target r) as [v|]; [|discriminate].
      exists v. split; [reflexivity|]. now apply Z.eqb_eq. }
    split.
    + left. split; [apply deployment_target_raised|exact Hwhy].
    + intros v v' Hv Hne Hv'. rewrite deployment_target_raised in Hv'.
      injection Hv' as <-. apply compare_asym.
      destruct Hwhy as [Ht|(v0 & Hv0 & Hlt)].
      * rewrite Hv in Ht. cbn in Ht. apply String.eqb_neq in Hne.
        rewrite Hne in Ht. discriminate.
      * congruence.
  - apply must_raise_false in Hm as (v & Hv & Hne & Hge). split.
    + right. split; [reflexivity|]. eauto.
    + intros v0 v' Hv0 _ Hv'. rewrite Hv0 in Hv'. injection Hv' as <-.
      apply compare_irrefl.
Qed.

End VersionOrdering.

End PatchClaims.

(** ** The search for the project bundle *)

Section LocatorFacts.
Variable path_join : string -> string -> string.

Lemma find_project_skip (iosFolder : string) (data : list string)
    (found : option string * option string) :
  Forall (fun e => ends_with ".xcodeproj" e = false) data ->
  fold_left (visit path_join iosFolder) data found = found.
Proof.
  revert found. induction data as [|e data IH]; intros found Hno; [reflexivity|].
  apply Forall_cons in Hno as [He Hno]. cbn [fold_left].
  unfold visit at 2. rewrite He. now apply IH.
Qed.

(** C7. When entries of the listing match the suffix [.xcodeproj], the last
    of them in listing order gives the bundle path (the searched folder
    joined with its name) and the project name, which is its name without
    the suffix. *)
Theorem last_matching_entry_wins (iosFolder : string)
    (before after : list string) (last projName : string) :
  last = projName ++ ".xcodeproj" ->
  Forall (fun e => ends_with ".xcodeproj" e = false) after ->
  find_project path_join iosFolder (before ++ last :: after) =
  (Some (path_join iosFolder last), Some projName).
Proof.
  intros -> Hafter. unfold find_project.
  rewrite fold_left_app. cbn [fold_left].
  rewrite (find_project_skip _ _ _ Hafter).
  unfold visit at 1. now rewrite ends_with_append, basename_append.
Qed.

End LocatorFacts.

(** ** The hook *)

Section HookFacts.
Variable compare : string -> string -> Z.
Variable path_join : string -> string -> string.
Variable parseSync : string -> result pbxProject.
Variable writeSync : pbxProject -> result string.
Variable logMe : string -> M world unit.

Local Abbreviation hook :=
  (enableAssociativeDomainsCapability compare path_join parseSync writeSync logMe).
Local Abbreviation activate :=
  (activateAssociativeDomains compare path_join parseSync writeSync).

Lemma existsSync_run (p : string) (w : world) :
  existsSync p w =
  (Ok (match files w !! p with Some _ => true | None => false end),
   mkWorld (files w) (log w ++ [ExistsSync p])).
Proof. reflexivity. Qed.

Lemma readdirSync_run (p : string) (w : world) :
  readdirSync p w =
  (match files w !! p with
   | Some (Dir entries) => Ok entries
   | Some (File _) => Throw (SystemError "ENOTDIR" "scandir" (Some p))
   | None => Throw (not_there (files w) "scandir" p)
   end,
   mkWorld (files w) (log w ++ [ReaddirSync p])).
Proof.
  unfold readdirSync, bind, emit, modify, get_state. cbn [files].
  now destruct (files w !! p) as [[]|].
Qed.

(** On a folder that could be listed, [directoryExists] answers [true]
    without reaching its handler. *)
Lemma directoryExists_listed (p : string) (entries : list string) (w : world) :
  files w !! p = Some (Dir entries) ->
  directoryExists logMe p w =
  (Ok true, mkWorld (files w) (log w ++ [StatSync p])).
Proof.
  intros H. unfold directoryExists, try_catch, statSync_isDirectory, bind,
    emit, modify, get_state. cbn [files]. now rewrite H.
Qed.

(** The hook from the listing on: what it does once [iosFolder] is chosen
    and the platform folder has been looked for. *)
Lemma hook_after_listing (ctx : context) (w : world) (data : list string) :
  let iosPlatform := path_join (projectRoot ctx) "platforms/ios/" in
  let iosFolder := match files w !! iosPlatform with
                   | Some _ => iosPlatform
                   | None => projectRoot ctx
                   end in
  let listed := mkWorld (files w)
                  (log w ++ [ExistsSync iosPlatform; ReaddirSync iosFolder]) in
  files w !! iosFolder = Some (Dir data) ->
  hook ctx w =
  match find_project path_join iosFolder data with
  | (projFolder, projName) =>
      if falsy projFolder || falsy projName
      then (Throw (not_found iosFolder), listed)
      else activate ctx (default "" projFolder)
             (mkWorld (files w) (log listed ++ [StatSync iosFolder]))
  end.
Proof.
  intros iosPlatform iosFolder listed Hdir.
  unfold enableAssociativeDomainsCapability. fold iosPlatform.
  unfold bind at 1. rewrite existsSync_run.
  assert (Hfolder : (if match files w !! iosPlatform with
                        | Some _ => true | None => false end
                     then iosPlatform else projectRoot ctx) = iosFolder).
  { unfold iosFolder. now destruct (files w !! iosPlatform). }
  rewrite Hfolder. unfold bind at 1. rewrite readdirSync_run. cbn [files log].
  rewrite Hdir, <- app_assoc. cbn [app]. fold listed.
  destruct (find_project path_join iosFolder data) as [projFolder projName].
  destruct (falsy projFolder || falsy projName); [reflexivity|].
  unfold bind at 1.
  rewrite (directoryExists_listed iosFolder data listed Hdir). reflexivity.
Qed.

(** C5. When the listing of the searched folder has no entry that matches
    the suffix [.xcodeproj], the hook throws an error whose message ends
    with the path of the searched folder; it has only looked for the
    platform folder and listed the searched one: no project file was parsed,
    serialized or written, and the files are as they were. *)
Theorem no_bundle_is_an_error (ctx : context) (w : world) (data : list string) :
  let iosPlatform := path_join (projectRoot ctx) "platforms/ios/" in
  let iosFolder := match files w !! iosPlatform with
                   | Some _ => iosPlatform
                   | None => projectRoot ctx
                   end in
  files w !! iosFolder = Some (Dir data) ->
  Forall (fun e => ends_with ".xcodeproj" e = false) data ->
  hook ctx w =
  (Throw (Error ("Could not find an .xcodeproj folder in: " ++ iosFolder)),
   mkWorld (files w)
     (log w ++ [ExistsSync iosPlatform; ReaddirSync iosFolder])).
Proof.
  intros iosPlatform iosFolder Hdir Hno.
  rewrite (hook_after_listing ctx w data Hdir). fold iosPlatform iosFolder.
  unfold find_project. rewrite (find_project_skip _ _ _ _ Hno). reflexivity.
Qed.

(** C6, as the code has it. When the platform folder does not exist the hook
    searches the project root instead. It throws the error of the listing
    when the root cannot be listed. It throws the not-found error, naming
    the root, when no entry of the listing matches the suffix [.xcodeproj]
    and when the last entry that matches is named just [.xcodeproj], so that
    the project name is empty. Otherwise, the last entry that matches having
    a name and a path, it runs [activateAssociativeDomains] on that bundle of
    the root: there is no outcome in which it returns without having done
    so. *)
Theorem missing_platform_folder_searches_root (ctx : context) (w : world) :
  let iosPlatform := path_join (projectRoot ctx) "platforms/ios/" in
  let root := projectRoot ctx in
  let listed := mkWorld (files w)
                  (log w ++ [ExistsSync iosPlatform; ReaddirSync root]) in
  files w !! iosPlatform = None ->
  hook ctx w =
  match files w !! root with
  | Some (Dir data) =>
      match find_project path_join root data with
      | (projFolder, projName) =>
          if falsy projFolder || falsy projName
          then (Throw (not_found root), listed)
          else activate ctx (default "" projFolder)
                 (mkWorld (files w) (log listed ++ [StatSync root]))
      end
  | Some (File _) =>
      (Throw (SystemError "ENOTDIR" "scandir" (Some root)), listed)
  | None => (Throw (not_there (files w) "scandir" root), listed)
  end /\
  ((forall data, files w !! root <> Some (Dir data)) ->
   exists e, hook ctx w = (Throw e, listed)) /\
  (forall data,
      files w !! root = Some (Dir data) ->
      Forall (fun e => ends_with ".xcodeproj" e = false) data ->
      hook ctx w = (Throw (not_found root), listed)) /\
  (forall before after,
      files w !! root = Some (Dir (before ++ ".xcodeproj" :: after)) ->
      Forall (fun e => ends_with ".xcodeproj" e = false) after ->
      hook ctx w = (Throw (not_found root), listed)) /\
  (forall before projName after,
      files w !! root =
        Some (Dir (before ++ (projName ++ ".xcodeproj") :: after)) ->
      Forall (fun e => ends_with ".xcodeproj" e = false) after ->
      projName <> "" ->
      path_join root (projName ++ ".xcodeproj") <> "" ->
      hook ctx w =
      activate ctx (path_join root (projName ++ ".xcodeproj"))
        (mkWorld (files w) (log listed ++ [StatSync root]))).
Proof.
  intros iosPlatform root listed Hmissing.
  assert (Hlisted : forall data,
    files w !! root = Some (Dir data) ->
    hook ctx w =
    match find_project path_join root data with
    | (projFolder, projName) =>
        if falsy projFolder || falsy projName
        then (Throw (not_found root), listed)
        else activate ctx (default "" projFolder)
               (mkWorld (files w) (log listed ++ [StatSync root]))
    end).
  { intros data Hroot.
    pose proof (hook_after_listing ctx w data) as H. cbv zeta in H.
    fold iosPlatform root in H. rewrite Hmissing in H. now apply H. }
  assert (Hfails : forall e,
    match files w !! root with
    | Some (Dir _) => False
    | Some (File _) => e = SystemError "ENOTDIR" "scandir" (Some root)
    | None => e = not_there (files w) "scandir" root
    end ->
    hook ctx w = (Throw e, listed)).
  { intros e He.
    unfold enableAssociativeDomainsCapability. fold iosPlatform root.
    unfold bind at 1. rewrite existsSync_run, Hmissing.
    unfold bind at 1. rewrite readdirSync_run. cbn [files log].
    rewrite <- app_assoc. cbn [app]. fold listed.
    destruct (files w !! root) as [[content|data]|]; [|contradiction|];
      now subst e. }
  split_and!.
  - destruct (files w !! root) as [[content|data]|] eqn:Hroot.
    + now apply Hfails.
    + now apply Hlisted.
    + now apply Hfails.
  - intros Hnot. destruct (files w !! root) as [[content|data]|] eqn:Hroot.
    + eexists. now apply Hfails.
    + now destruct (Hnot data).
    + eexists. now apply Hfails.
  - intros data Hroot Hno. rewrite (Hlisted data Hroot).
    unfold find_project. now rewrite (find_project_skip _ _ _ _ Hno).
  - intros before after Hroot Hafter. rewrite (Hlisted _ Hroot).
    unfold find_project. rewrite fold_left_app. cbn [fold_left].
    rewrite (find_project_skip _ _ _ _ Hafter). unfold visit at 1.
    change (ends_with ".xcodeproj" ".xcodeproj") with true.
    change (basename ".xcodeproj" ".xcodeproj") with "".
    cbv [falsy JS.truthy]. cbn [String.eqb negb]. now rewrite orb_true_r.
  - intros before projName after Hroot Hafter Hname Hpath.
    rewrite (Hlisted _ Hroot).
    unfold find_project. rewrite fold_left_app. cbn [fold_left].
    rewrite (find_project_skip _ _ _ _ Hafter). unfold visit at 1.
    rewrite ends_with_append, basename_append.
    cbv [falsy JS.truthy].
    apply String.eqb_neq in Hname, Hpath. rewrite Hname, Hpath.
    reflexivity.
Qed.

Lemma writeFileSync_run (p content : string) (w : world) :
  writable (files w) p = true ->
  writeFileSync p content w =
  (Ok tt, mkWorld (<[p := File content]> (files w))
                  (log w ++ [WriteFileSync p content])).
Proof.
  unfold writable. intros Hfile.
  cbv [writeFileSync bind emit modify get_state throw]. cbn [files log].
  destruct (files w !! p) as [[c|entries]|]; [reflexivity|discriminate|].
  now destruct (files w !! dirname p) as [[c|entries]|].
Qed.

(** C8. When the xcode module resolves, the project has been loaded and every
    record of a non-comment entry already holds a version that is not below
    the threshold, the loop changes nothing and leaves the flag unset, and
    [activateAssociativeDomains] still serializes the project (with no
    notice on the console) and writes the result to [projectPath], a file
    that is there or that can be created in its bundle folder. *)
Theorem unchanged_project_is_still_written (ctx : context)
    (projFolder : string) (w loaded : world) (pbx : pbxProject)
    (content : string) :
  let projectPath := path_join projFolder "project.pbxproj" in
  requireCordovaModule ctx "xcode" = Ok tt ->
  load_project parseSync ctx projectPath w = (Ok pbx, loaded) ->
  well_formed pbx = true ->
  (forall k r,
      k ∈ JS.keys (pbxXCBuildConfigurationSection pbx) ->
      COMMENT_KEY k = false ->
      record_at pbx k = Some r ->
      exists v, deployment_target r = Some v /\ v <> "" /\
                compare v IOS_DEPLOYMENT_TARGET <> -1) ->
  writeSync pbx = Ok content ->
  writable (files loaded) projectPath = true ->
  patch compare pbx = (Ok false, pbx) /\
  activate ctx projFolder w =
  (Ok tt,
   mkWorld (<[projectPath := File content]> (files loaded))
           (log loaded ++ [WriteSync pbx; WriteFileSync projectPath content])).
Proof.
  intros projectPath Hrequire Hload Hwf Hrecent Hwrite Hfile.
  assert (Hpatch : patch compare pbx = (Ok false, pbx)).
  { apply patch_nothing_to_raise; [exact Hwf|]. intros k r Hin Hc Hr.
    apply must_raise_false. now apply (Hrecent k r). }
  split; [exact Hpatch|].
  unfold activateAssociativeDomains. fold projectPath.
  unfold bind at 1, lift at 1. rewrite Hrequire.
  unfold bind at 1. rewrite Hload, Hpatch.
  unfold bind, lift, ret, emit, modify. cbn [files log]. rewrite Hwrite.
  rewrite writeFileSync_run by exact Hfile. cbn [files log].
  now rewrite <- app_assoc.
Qed.

End HookFacts.

(** ** The comparator of the spec in the loop *)


(** ** The loop on a sample project *)

Ltac in_keys := apply list_elem_of_In; vm_compute; tauto.

Lemma patch_sets_threshold_or_keeps_witness :
  well_formed Sample.project = true /\
  exists updated pbx',
    patch Version.compare Sample.project = (Ok updated, pbx') /\
    deployment_target <$> record_at pbx' "1D6058950D05DD3E006BFB54"
      = Some (Some IOS_DEPLOYMENT_TARGET) /\
    record_at pbx' "C01FCF4F08A954540054247B"
      = Some (Sample.config (Some "8.10")).
Proof.
  split; [reflexivity|].
  destruct (patch_sets_threshold_or_keeps Version.compare Sample.project eq_refl)
    as (updated & pbx' & Hrun & Hrec).
  exists updated, pbx'. split_and!; [exact Hrun| |].
  - destruct (Hrec "1D6058950D05DD3E006BFB54" (Sample.config (Some "7.1")))
      as (r' & -> & Hlow & _); [in_keys|reflexivity|reflexivity|].
    cbn [fmap option_fmap option_map]. f_equal. apply Hlow.
    right; right. exists "7.1". split; reflexivity.
  - destruct (Hrec "C01FCF4F08A954540054247B" (Sample.config (Some "8.10")))
      as (r' & -> & _ & Hkeep); [in_keys|reflexivity|reflexivity|].
    f_equal. apply (Hkeep "8.10"); [reflexivity|discriminate|].
    vm_compute. discriminate.
Defined.

Lemma patch_never_lowers_witness :
  well_formed Sample.project = true /\
  exists updated pbx',
    patch Version.compare Sample.project = (Ok updated, pbx') /\
    forall r' v',
      record_at pbx' "1D6058950D05DD3E006BFB54" = Some r' ->
      deployment_target r' = Some v' ->
      Version.compare v' "7.1" <> -1.
Proof.
  split; [reflexivity|].
  destruct (patch_never_lowers Version.compare
              version_compare_irrefl version_compare_asym
              Sample.project eq_refl)
    as (updated & pbx' & Hrun & Hrec).
  exists updated, pbx'. split; [exact Hrun|]. intros r' v' Hr' Hv'.
  destruct (Hrec "1D6058950D05DD3E006BFB54" (Sample.config (Some "7.1")))
    as (r0 & Hr0 & _ & Hge); [in_keys|reflexivity|reflexivity|].
  rewrite Hr0 in Hr'. injection Hr' as <-.
  apply Hge; [reflexivity|discriminate|exact Hv'].
Defined.


Lemma patch_idempotent_witness :
  exists updated pbx',
    patch Version.compare Sample.project = (Ok updated, pbx') /\
    patch Version.compare pbx' = (Ok false, pbx').
Proof.
  apply (patch_idempotent Version.compare Sample.project);
    [vm_compute; discriminate|reflexivity].
Defined.

Lemma updated_records_get_8_0_witness :
  well_formed Sample.project = true /\
  exists updated pbx',
    patch Version.compare Sample.project = (Ok updated, pbx') /\
    deployment_target <$> record_at pbx' "1D6058940D05DD3E006BFB54"
      = Some (Some "8.0").
Proof.
  split; [reflexivity|].
  destruct (updated_records_get_8_0 Version.compare Sample.project eq_refl)
    as (_ & updated & pbx' & Hrun & Hrec).
  exists updated, pbx'. split; [exact Hrun|].
  destruct (record_at pbx' "1D6058940D05DD3E006BFB54") as [r'|] eqn:Hr'.
  - cbn [fmap option_fmap option_map]. f_equal.
    apply (Hrec "1D6058940D05DD3E006BFB54" (Sample.config None) r');
      [in_keys|reflexivity|reflexivity|exact Hr'|reflexivity].
  - exfalso.
    assert (Hp : pbx' = (patch Version.compare Sample.project).2)
      by now rewrite Hrun.
    rewrite Hp in Hr'. vm_compute in Hr'. discriminate.
Defined.

(** ** The hook on sample folders *)

Lemma last_matching_entry_wins_witness :
  find_project Sample.path_join "/app/platforms/ios/"
    ["www"; "Old.xcodeproj"; "MyApp.xcodeproj"; "build"] =
  (Some "/app/platforms/ios/MyApp.xcodeproj", Some "MyApp").
Proof.
  apply (last_matching_entry_wins Sample.path_join "/app/platforms/ios/"
           ["www"; "Old.xcodeproj"] ["build"] "MyApp.xcodeproj" "MyApp");
    [reflexivity|repeat constructor].
Defined.

Lemma no_bundle_is_an_error_witness :
  Sample.hook Sample.ctx Sample.no_bundle =
  (Throw (Error "Could not find an .xcodeproj folder in: /app/platforms/ios/"),
   mkWorld (files Sample.no_bundle)
     [ExistsSync "/app/platforms/ios/"; ReaddirSync "/app/platforms/ios/"]).
Proof.
  apply (no_bundle_is_an_error Version.compare Sample.path_join
           Sample.parseSync Sample.writeSync Sample.logMe
           Sample.ctx Sample.no_bundle ["cordova"; "www"]);
    [reflexivity|repeat constructor].
Defined.

(** The hook on a project root without [platforms/ios/] and without a bundle:
    it does not return silently, it throws. *)
Lemma missing_platform_folder_throws :
  ~ (forall (ctx : context) (w : world),
        files w !! Sample.path_join (projectRoot ctx) "platforms/ios/" = None ->
        exists w', Sample.hook ctx w = (Ok tt, w') /\ files w' = files w).
Proof.
  intros Hclaim.
  destruct (Hclaim Sample.ctx Sample.no_platform eq_refl) as (w' & Hrun & _).
  vm_compute in Hrun. discriminate.
Qed.

Lemma missing_platform_folder_searches_root_witness :
  Sample.hook Sample.ctx Sample.no_platform =
  (Throw (Error "Could not find an .xcodeproj folder in: /app"),
   mkWorld (files Sample.no_platform)
     [ExistsSync "/app/platforms/ios/"; ReaddirSync "/app"]).
Proof.
  exact (proj1 (missing_platform_folder_searches_root Version.compare
                  Sample.path_join Sample.parseSync Sample.writeSync
                  Sample.logMe Sample.ctx Sample.no_platform eq_refl)).
Defined.

Lemma unchanged_project_is_still_written_witness :
  patch Version.compare Sample.recent_project = (Ok false, Sample.recent_project) /\
  activateAssociativeDomains Version.compare Sample.path_join
    Sample.parseSync Sample.writeSync Sample.ctx Sample.bundle Sample.recent =
  (Ok tt,
   mkWorld (<[Sample.project_file := File Sample.recent_text]>
              (files Sample.recent))
     [ParseSync Sample.project_file;
      WriteSync Sample.recent_project;
      WriteFileSync Sample.project_file Sample.recent_text]).
Proof.
  apply (unchanged_project_is_still_written Version.compare Sample.path_join
           Sample.parseSync Sample.writeSync Sample.ctx Sample.bundle
           Sample.recent
           (mkWorld (files Sample.recent) [ParseSync Sample.project_file])
           Sample.recent_project Sample.recent_text).
  - reflexivity.
  - reflexivity.
  - reflexivity.
  - apply up_to_date_spec. reflexivity.
  - reflexivity.
  - reflexivity.
Defined.

(** * Further properties of the code *)

(** ** nonComments returns an object without comment entries *)

Lemma set_fresh {V : Type} (o : JS.obj V) (k : string) (v : V) :
  k ∉ JS.keys o -> JS.set k v o = (o ++ [(k, v)])%list.
Proof.
  unfold JS.keys. induction o as [|[k0 v0] o IH]; cbn; [reflexivity|].
  rewrite not_elem_of_cons. intros [Hk Ho].
  apply String.eqb_neq in Hk. rewrite Hk. now rewrite (IH Ho).
Qed.

Lemma get_app_fresh {V : Type} (o o' : JS.obj V) (k : string) :
  k ∉ JS.keys o -> JS.get k (o ++ o')%list = JS.get k o'.
Proof.
  unfold JS.keys. induction o as [|[k0 v0] o IH]; cbn; [reflexivity|].
  rewrite not_elem_of_cons. intros [Hk Ho].
  apply String.eqb_neq in Hk. rewrite Hk. now apply IH.
Qed.

Lemma NoDup_keys_set {V : Type} (o : JS.obj V) (k : string) (v : V) :
  NoDup (JS.keys o) -> NoDup (JS.keys (JS.set k v o)).
Proof.
  intros Hnd. destruct (decide (k ∈ JS.keys o)) as [Hin|Hout].
  - now rewrite (keys_set_old _ _ _ Hin).
  - rewrite (keys_set_fresh _ _ _ Hout). apply NoDup_app. split_and!.
    + exact Hnd.
    + intros x Hx Hx'. apply list_elem_of_singleton in Hx'. congruence.
    + apply NoDup_singleton.
Qed.

Lemma NoDup_keys_nonComments_loop (keys : list string) (obj acc : JS.obj value) :
  NoDup (JS.keys acc) -> NoDup (JS.keys (nonComments_loop keys obj acc)).
Proof.
  revert acc. induction keys as [|k keys IH]; intros acc Hnd; [exact Hnd|].
  cbn [nonComments_loop]. apply IH.
  destruct (COMMENT_KEY k); [exact Hnd|]. now apply NoDup_keys_set.
Qed.

Lemma nonComments_loop_rebuild (rest acc : JS.obj value) :
  NoDup (JS.keys (acc ++ rest)%list) ->
  (forall k, k ∈ JS.keys rest -> COMMENT_KEY k = false) ->
  nonComments_loop (JS.keys rest) (acc ++ rest)%list acc = (acc ++ rest)%list.
Proof.
  revert acc. induction rest as [|[k v] rest IH]; intros acc Hnd Hreal.
  - cbn. now rewrite app_nil_r.
  - assert (Hfresh : k ∉ JS.keys acc).
    { unfold JS.keys in *. rewrite map_app in Hnd.
      apply NoDup_app in Hnd as (_ & Hdisj & _).
      intros Hin. apply (Hdisj _ Hin). cbn. apply elem_of_cons. tauto. }
    change (JS.keys ((k, v) :: rest)) with (k :: JS.keys rest).
    cbn [nonComments_loop].
    rewrite (Hreal k) by (cbn; apply elem_of_cons; tauto).
    assert (Hk : index (acc ++ (k, v) :: rest)%list k = v).
    { unfold index. rewrite (get_app_fresh _ _ _ Hfresh). cbn.
      now rewrite String.eqb_refl. }
    rewrite Hk, (set_fresh _ _ _ Hfresh).
    replace (acc ++ (k, v) :: rest)%list with ((acc ++ [(k, v)]) ++ rest)%list
      by now rewrite <- app_assoc.
    apply IH.
    + now rewrite <- app_assoc.
    + intros k' Hin. apply Hreal. cbn. apply elem_of_cons. tauto.
Qed.

(** X1. [nonComments] is idempotent, and it is the identity on an object
    that has no comment entry: the object it returns holds the same entries
    in the same order. *)
Theorem nonComments_idempotent (obj : JS.obj value) :
  nonComments (nonComments obj) = nonComments obj /\
  (NoDup (JS.keys obj) ->
   (forall k, k ∈ JS.keys obj -> COMMENT_KEY k = false) ->
   nonComments obj = obj).
Proof.
  assert (Hfix : forall o : JS.obj value,
             NoDup (JS.keys o) ->
             (forall k, k ∈ JS.keys o -> COMMENT_KEY k = false) ->
             nonComments o = o).
  { intros o Hnd Hreal. unfold nonComments.
    exact (nonComments_loop_rebuild o [] Hnd Hreal). }
  split; [|apply Hfix]. apply Hfix.
  - unfold nonComments. apply NoDup_keys_nonComments_loop. constructor.
  - intros k Hin. now apply elem_of_keys_nonComments in Hin.
Qed.

(** ** The loop on entries that are not records *)

Section LoopErrors.
Variable compare : string -> string -> Z.
Implicit Types (objs : gmap loc XCBuildConfiguration) (pbx : pbxProject).

Lemma live_or_not configurations objs (k : string) :
  live configurations objs k \/ ~ live configurations objs k.
Proof.
  unfold live. destruct (index configurations k) as [| |l] eqn:Hk.
  - right. intros (l & ? & _). discriminate.
  - right. intros (l & ? & _). discriminate.
  - destruct (objs !! l) as [r|] eqn:Hl.
    + left. exists l. rewrite Hl. eauto.
    + right. intros (l' & Hl' & [r Hr]). congruence.
Qed.

Lemma loop_body_not_live configurations objs (k : string) (u : bool) :
  ~ live configurations objs k ->
  loop_body compare configurations k u objs = (Throw TypeError, objs).
Proof.
  intros Hdead. unfold loop_body, bind, get_state, throw.
  destruct (index configurations k) as [| |l] eqn:Hk; try reflexivity.
  destruct (objs !! l) as [r|] eqn:Hl; [|reflexivity].
  destruct Hdead. exists l. rewrite Hl. eauto.
Qed.

Lemma for_in_app configurations (keys keys' : list string) :
  forall u objs,
    for_in compare (keys ++ keys') configurations u objs =
    match for_in compare keys configurations u objs with
    | (Ok u', objs') => for_in compare keys' configurations u' objs'
    | (Throw e, objs') => (Throw e, objs')
    end.
Proof.
  induction keys as [|k keys IH]; intros u objs; [reflexivity|].
  cbn [for_in app]. unfold bind.
  destruct (loop_body compare configurations k u objs) as [[u1|e] objs1];
    [apply IH|reflexivity].
Qed.

(** The loop up to the first key that does not refer to a record object. *)
Lemma for_in_stops configurations (before after : list string) (bad : string)
    (u : bool) objs :
  Forall (live configurations objs) before ->
  ~ live configurations objs bad ->
  exists objs',
    for_in compare (before ++ bad :: after) configurations u objs =
    (Throw TypeError, objs') /\
    forall l, objs' !! l =
              if decide (l ∈ refs configurations before)
              then settle compare <$> objs !! l else objs !! l.
Proof.
  intros Hlive Hdead.
  destruct (for_in_spec compare configurations before u objs Hlive)
    as (u' & objs' & Hrun & Hlook & _).
  exists objs'. split; [|exact Hlook].
  rewrite for_in_app, Hrun. cbn [for_in]. unfold bind at 1.
  rewrite loop_body_not_live; [reflexivity|].
  intros (l & Hk & Hsome). apply Hdead. exists l. split; [exact Hk|].
  rewrite Hlook in Hsome. case_decide; [|exact Hsome].
  now apply fmap_is_Some in Hsome.
Qed.

Lemma not_well_formed pbx :
  well_formed pbx = false ->
  exists before bad after,
    JS.keys (nonComments (pbxXCBuildConfigurationSection pbx)) =
      (before ++ bad :: after)%list /\
    Forall (live (nonComments (pbxXCBuildConfigurationSection pbx)) (objects pbx))
           before /\
    ~ live (nonComments (pbxXCBuildConfigurationSection pbx)) (objects pbx) bad.
Proof.
  intros Hwf.
  set (configurations := nonComments (pbxXCBuildConfigurationSection pbx)).
  assert (Hbad : Exists (fun k => ~ live configurations (objects pbx) k)
                        (JS.keys configurations)).
  { apply Exists_exists.
    assert (Hex : exists k, k ∈ JS.keys (pbxXCBuildConfigurationSection pbx) /\
                            COMMENT_KEY k = false /\ record_at pbx k = None).
    { unfold well_formed in Hwf.
      induction (JS.keys (pbxXCBuildConfigurationSection pbx)) as [|k ks IH];
        [discriminate|].
      cbn [forallb] in Hwf. apply andb_false_iff in Hwf as [Hk|Hks].
      - exists k. apply orb_false_iff in Hk as [Hc Hr].
        split_and!; [apply elem_of_cons; tauto|exact Hc|].
        now destruct (record_at pbx k).
      - destruct (IH Hks) as (k' & Hin & H). exists k'.
        split; [apply elem_of_cons; tauto|exact H]. }
    destruct Hex as (k & Hin & Hc & Hr). exists k. split.
    - now apply elem_of_keys_nonComments.
    - intros (l & Hk & [r Hl]). unfold configurations in Hk.
      rewrite index_nonComments in Hk by exact Hc.
      unfold record_at in Hr. rewrite Hk in Hr. congruence. }
  induction (JS.keys configurations) as [|k ks IH].
  - now apply Exists_nil in Hbad.
  - destruct (live_or_not configurations (objects pbx) k) as [Hk|Hk].
    + apply Exists_cons in Hbad as [Hbad|Hbad]; [contradiction|].
      destruct (IH Hbad) as (before & bad & after & -> & Hlive & Hdead).
      exists (k :: before), bad, after. split_and!; [reflexivity| |exact Hdead].
      now apply Forall_cons.
    + exists [], k, ks. split_and!; [reflexivity|constructor|exact Hk].
Qed.

(** X2. The loop completes exactly on the projects in which every non-comment
    entry refers to a record object; on any other project it throws a
    [TypeError]. *)
Theorem patch_completes_iff_well_formed pbx :
  (well_formed pbx = true -> exists u, (patch compare pbx).1 = Ok u) /\
  (well_formed pbx = false -> (patch compare pbx).1 = Throw TypeError).
Proof.
  split; intros Hwf.
  - destruct (patch_spec compare _ Hwf) as (u & pbx' & Hrun & _).
    exists u. now rewrite Hrun.
  - destruct (not_well_formed _ Hwf) as (before & bad & after & Hkeys & Hlive & Hdead).
    destruct (for_in_stops _ before after bad false _ Hlive Hdead)
      as (objs' & Hrun & _).
    unfold patch. now rewrite Hkeys, Hrun.
Qed.

(** X3. The loop goes through the entries in order and mutates the records in
    place: when the first non-comment entry that does not refer to a record
    object comes after the entries [before], the loop throws a [TypeError]
    having already raised the records of [before], and only those. *)
Theorem loop_stops_at_first_non_record pbx (before after : list string)
    (bad : string) :
  JS.keys (nonComments (pbxXCBuildConfigurationSection pbx)) =
    (before ++ bad :: after)%list ->
  Forall (fun k => is_Some (record_at pbx k)) before ->
  record_at pbx bad = None ->
  exists pbx',
    patch compare pbx = (Throw TypeError, pbx') /\
    (forall k r, k ∈ before -> record_at pbx k = Some r ->
                 record_at pbx' k = Some (settle compare r)) /\
    (forall l, (forall k, k ∈ before ->
                          index (pbxXCBuildConfigurationSection pbx) k <> VRef l) ->
               objects pbx' !! l = objects pbx !! l).
Proof.
  intros Hkeys Hbefore Hbad.
  set (section := pbxXCBuildConfigurationSection pbx) in *.
  assert (Hreal : forall k, k ∈ (before ++ bad :: after)%list ->
                            index (nonComments section) k = index section k).
  { intros k Hin. rewrite <- Hkeys in Hin.
    apply elem_of_keys_nonComments in Hin as [_ Hc].
    now apply index_nonComments. }
  assert (Hlive : Forall (live (nonComments section) (objects pbx)) before).
  { apply Forall_forall. intros k Hin.
    rewrite Forall_forall in Hbefore. destruct (Hbefore k Hin) as [r Hr].
    unfold record_at in Hr. fold section in Hr.
    destruct (index section k) as [| |l] eqn:Hk; try discriminate.
    exists l. rewrite Hreal by (apply elem_of_app; tauto).
    rewrite Hr. eauto. }
  assert (Hdead : ~ live (nonComments section) (objects pbx) bad).
  { intros (l & Hk & [r Hl]).
    rewrite Hreal in Hk by (apply elem_of_app; right; apply elem_of_cons; tauto).
    unfold record_at in Hbad. fold section in Hbad. rewrite Hk in Hbad.
    congruence. }
  destruct (for_in_stops _ before after bad false _ Hlive Hdead)
    as (objs' & Hrun & Hlook).
  exists (mkProject section objs'). split_and!.
  - unfold patch. fold section. now rewrite Hkeys, Hrun.
  - intros k r Hin Hr. unfold record_at in *.
    cbn [objects pbxXCBuildConfigurationSection]. fold section in Hr.
    destruct (index section k) as [| |l] eqn:Hk; try discriminate.
    rewrite Hlook, decide_True, Hr; [reflexivity|].
    apply elem_of_refs. exists k. split; [exact Hin|].
    rewrite Hreal by (apply elem_of_app; tauto). exact Hk.
  - intros l Hl. cbn [objects]. rewrite Hlook, decide_False; [reflexivity|].
    rewrite elem_of_refs. intros (k & Hin & Hk).
    rewrite Hreal in Hk by (apply elem_of_app; tauto). exact (Hl k Hin Hk).
Qed.

Lemma settle_frame (r : XCBuildConfiguration) :
  isa (settle compare r) = isa r /\
  name (settle compare r) = name r /\
  (forall key, key <> IPHONEOS_DEPLOYMENT_TARGET ->
               JS.get key (buildSettings (settle compare r)) =
               JS.get key (buildSettings r)) /\
  (JS.keys (buildSettings (settle compare r)) = JS.keys (buildSettings r) \/
   (IPHONEOS_DEPLOYMENT_TARGET ∉ JS.keys (buildSettings r)) /\
   JS.keys (buildSettings (settle compare r)) =
   (JS.keys (buildSettings r) ++ [IPHONEOS_DEPLOYMENT_TARGET])%list).
Proof.
  unfold settle. destruct (must_raise compare r); [|tauto].
  unfold raised, with_buildSettings. cbn [isa name buildSettings].
  split_and!; [reflexivity|reflexivity| |].
  - intros key Hkey. apply get_set_ne. congruence.
  - destruct (decide (IPHONEOS_DEPLOYMENT_TARGET ∈ JS.keys (buildSettings r)))
      as [Hin|Hout].
    + left. now apply keys_set_old.
    + right. split; [exact Hout|]. now apply keys_set_fresh.
Qed.

(** X4. The loop writes one setting and nothing else: the record of a
    non-comment entry keeps its [isa], its [name] and every other build
    setting, and the settings keep their order, the deployment target being
    added last when it was missing. *)
Theorem other_settings_untouched pbx :
  well_formed pbx = true ->
  exists updated pbx',
    patch compare pbx = (Ok updated, pbx') /\
    forall k r,
      k ∈ JS.keys (pbxXCBuildConfigurationSection pbx) ->
      COMMENT_KEY k = false ->
      record_at pbx k = Some r ->
      exists r',
        record_at pbx' k = Some r' /\
        isa r' = isa r /\
        name r' = name r /\
        (forall key, key <> IPHONEOS_DEPLOYMENT_TARGET ->
                     JS.get key (buildSettings r') = JS.get key (buildSettings r)) /\
        (JS.keys (buildSettings r') = JS.keys (buildSettings r) \/
         (IPHONEOS_DEPLOYMENT_TARGET ∉ JS.keys (buildSettings r)) /\
         JS.keys (buildSettings r') =
         (JS.keys (buildSettings r) ++ [IPHONEOS_DEPLOYMENT_TARGET])%list).
Proof.
  intros Hwf.
  destruct (patch_spec compare _ Hwf) as (u & pbx' & Hrun & _ & Hrec & _).
  exists u, pbx'. split; [exact Hrun|]. intros k r Hin Hc Hr.
  exists (settle compare r). split; [now apply Hrec|apply settle_frame].
Qed.

End LoopErrors.

(** ** The flag and the project after the loop *)

Section FlagFacts.
Variable compare : string -> string -> Z.

Lemma up_to_date_false (pbx : pbxProject) :
  up_to_date compare pbx = false <->
  exists k r, k ∈ JS.keys (pbxXCBuildConfigurationSection pbx) /\
              COMMENT_KEY k = false /\
              record_at pbx k = Some r /\ must_raise compare r = true.
Proof.
  unfold up_to_date.
  induction (JS.keys (pbxXCBuildConfigurationSection pbx)) as [|k ks IH].
  - split; [discriminate|]. intros (k & r & Hin & _).
    now apply elem_of_nil in Hin.
  - cbn [forallb]. rewrite andb_false_iff, IH, orb_false_iff. split.
    + intros [[Hc Hr]|(k' & r & Hin & H)].
      * destruct (record_at pbx k) as [r|] eqn:Hk; [|discriminate].
        apply negb_false_iff in Hr. exists k, r.
        split_and!; [apply elem_of_cons; tauto|assumption..].
      * exists k', r. split; [apply elem_of_cons; tauto|exact H].
    + intros (k' & r & Hin & Hc & Hr & Hm).
      apply elem_of_cons in Hin as [->|Hin].
      * left. rewrite Hr, Hm. tauto.
      * right. exists k', r. tauto.
Qed.

(** The flag after the loop says whether the project was up to date. *)
Lemma patch_flag (pbx : pbxProject) :
  well_formed pbx = true ->
  (patch compare pbx).1 = Ok (negb (up_to_date compare pbx)).
Proof.
  intros Hwf.
  destruct (patch_spec compare _ Hwf) as (u & pbx' & Hrun & _ & _ & _ & Hflag).
  rewrite Hrun. cbn [fst]. f_equal.
  destruct (up_to_date compare pbx) eqn:Hup; cbn [negb].
  - destruct u; [|reflexivity]. destruct Hflag as [Hflag _].
    specialize (Hflag eq_refl). apply up_to_date_false in Hflag. congruence.
  - apply Hflag. now apply up_to_date_false.
Qed.

(** After the loop no record has to be raised any more. *)
Lemma patch_settles (pbx : pbxProject) :
  compare IOS_DEPLOYMENT_TARGET IOS_DEPLOYMENT_TARGET <> -1 ->
  well_formed pbx = true ->
  well_formed (patch compare pbx).2 = true /\
  up_to_date compare (patch compare pbx).2 = true.
Proof.
  intros Hrefl Hwf.
  destruct (patch_spec compare _ Hwf) as (u & pbx' & Hrun & Hsec & Hrec & _ & _).
  rewrite Hrun. cbn [snd].
  assert (Hsettled : forall k, k ∈ JS.keys (pbxXCBuildConfigurationSection pbx) ->
            COMMENT_KEY k = false ->
            exists r, record_at pbx' k = Some (settle compare r)).
  { intros k Hin Hc.
    destruct (well_formed_record _ _ Hwf Hin Hc) as (l & r & Hk & Hl).
    exists r. apply Hrec; try assumption. unfold record_at. now rewrite Hk. }
  unfold well_formed, up_to_date. rewrite Hsec.
  split; apply forallb_forall; intros k Hin; apply list_elem_of_In in Hin;
    (destruct (COMMENT_KEY k) eqn:Hc; [reflexivity|]);
    destruct (Hsettled k Hin Hc) as (r & ->); cbn [orb]; [reflexivity|].
  apply negb_true_iff. unfold settle.
  destruct (must_raise compare r) eqn:Hm; [|exact Hm].
  apply must_raise_false. exists IOS_DEPLOYMENT_TARGET.
  split_and!; [apply deployment_target_raised|discriminate|exact Hrefl].
Qed.

End FlagFacts.

(** ** What activateAssociativeDomains does to the files *)

Section ActivateFacts.
Variable compare : string -> string -> Z.
Variable path_join : string -> string -> string.
Variable parseSync : string -> result pbxProject.
Variable writeSync : pbxProject -> result string.

Local Abbreviation activate :=
  (activateAssociativeDomains compare path_join parseSync writeSync).

Lemma load_project_files (ctx : context) (p : string) (w : world) :
  files (load_project parseSync ctx p w).2 = files w.
Proof.
  unfold load_project.
  destruct (cordova_project ctx) as [parseProjectFile|];
    cbv [bind emit modify lift readFileSync get_state ret throw];
    cbn [files log fst snd]; [reflexivity|].
  now destruct (files w !! p) as [[content|entries]|].
Qed.

Lemma writeFileSync_outcome (p content : string) (w : world) :
  (writable (files w) p = true /\
   writeFileSync p content w =
   (Ok tt, mkWorld (<[p := File content]> (files w))
                   (log w ++ [WriteFileSync p content]))) \/
  (exists e, writeFileSync p content w =
             (Throw e, mkWorld (files w) (log w ++ [WriteFileSync p content]))).
Proof.
  unfold writable.
  cbv [writeFileSync bind emit modify get_state throw]. cbn [files log].
  destruct (files w !! p) as [[c|entries]|]; [left; tauto|right; eauto|].
  destruct (files w !! dirname p) as [[c|entries]|];
    [right; eauto|left; tauto|right; eauto].
Qed.

(** A project that was parsed from disk was read from a regular file. *)
Lemma loaded_from_file (ctx : context) (p : string) (w loaded : world)
    (pbx : pbxProject) :
  cordova_project ctx = None ->
  load_project parseSync ctx p w = (Ok pbx, loaded) ->
  exists content, files w !! p = Some (File content).
Proof.
  intros Hplain. unfold load_project. rewrite Hplain.
  cbv [bind emit modify lift readFileSync get_state ret throw].
  cbn [files log].
  destruct (files w !! p) as [[content|entries]|]; [eauto|discriminate..].
Qed.

(** Every way [activateAssociativeDomains] can end. *)
Lemma activate_outcome (ctx : context) (projFolder : string) (w w' : world)
    (res : result unit) :
  let projectPath := path_join projFolder "project.pbxproj" in
  activate ctx projFolder w = (res, w') ->
  (exists e, res = Throw e /\ files w' = files w) \/
  (res = Ok tt /\
   exists pbx loaded updated pbx' content,
     load_project parseSync ctx projectPath w = (Ok pbx, loaded) /\
     patch compare pbx = (Ok updated, pbx') /\
     writeSync pbx' = Ok content /\
     writable (files w) projectPath = true /\
     w' = mkWorld (<[projectPath := File content]> (files w))
            (log loaded ++ notice updated ++
             [WriteSync pbx'; WriteFileSync projectPath content])).
Proof.
  intros projectPath Hrun.
  unfold activateAssociativeDomains in Hrun. fold projectPath in Hrun.
  unfold bind at 1, lift at 1 in Hrun.
  destruct (requireCordovaModule ctx "xcode") as [[]|e];
    [|injection Hrun as <- <-; left; eauto].
  unfold bind at 1 in Hrun.
  pose proof (load_project_files ctx projectPath w) as Hfiles.
  destruct (load_project parseSync ctx projectPath w) as [[pbx|e] loaded]
    eqn:Hload; cbn [snd] in Hfiles;
    [|injection Hrun as <- <-; left; eauto].
  destruct (patch compare pbx) as [[updated|e] pbx'] eqn:Hpatch;
    [|injection Hrun as <- <-; left; eauto].
  assert (Hrest :
    (res, w') =
    match writeSync pbx' with
    | Ok content =>
        writeFileSync projectPath content
          (mkWorld (files loaded) (log loaded ++ notice updated ++ [WriteSync pbx']))
    | Throw e =>
        (Throw e,
         mkWorld (files loaded) (log loaded ++ notice updated ++ [WriteSync pbx']))
    end).
  { rewrite <- Hrun. cbv [bind lift emit modify ret notice].
    destruct updated; cbn [files log app]; rewrite <- ?app_assoc;
      cbn [app]; rewrite ?app_nil_r; now destruct (writeSync pbx'). }
  clear Hrun. destruct (writeSync pbx') as [content|e] eqn:Hwrite;
    [|injection Hrest as -> ->; left; eauto].
  destruct (writeFileSync_outcome projectPath content
              (mkWorld (files loaded)
                 (log loaded ++ notice updated ++ [WriteSync pbx'])))
    as [[Hcan Hdone]|[e Hthrown]]; cbn [files log] in *.
  - rewrite Hdone in Hrest. injection Hrest as -> ->. rewrite Hfiles in *.
    right. split; [reflexivity|].
    exists pbx, loaded, updated, pbx', content.
    split_and!; try reflexivity; try assumption.
    now rewrite <- !app_assoc.
  - rewrite Hthrown in Hrest. injection Hrest as -> ->. left. eauto.
Qed.

(** The run in which nothing throws. *)
Lemma activate_run (ctx : context) (projFolder : string) (w loaded : world)
    (pbx pbx' : pbxProject) (updated : bool) (content : string) :
  let projectPath := path_join projFolder "project.pbxproj" in
  requireCordovaModule ctx "xcode" = Ok tt ->
  load_project parseSync ctx projectPath w = (Ok pbx, loaded) ->
  patch compare pbx = (Ok updated, pbx') ->
  writeSync pbx' = Ok content ->
  writable (files w) projectPath = true ->
  activate ctx projFolder w =
  (Ok tt,
   mkWorld (<[projectPath := File content]> (files w))
     (log loaded ++ notice updated ++
      [WriteSync pbx'; WriteFileSync projectPath content])).
Proof.
  intros projectPath Hrequire Hload Hpatch Hwrite Hfile.
  pose proof (load_project_files ctx projectPath w) as Hfiles.
  rewrite Hload in Hfiles. cbn [snd] in Hfiles.
  unfold activateAssociativeDomains. fold projectPath.
  unfold bind at 1, lift at 1. rewrite Hrequire.
  unfold bind at 1. rewrite Hload, Hpatch.
  cbv [bind lift emit modify ret notice].
  destruct updated; cbn [files log]; rewrite Hwrite;
    (rewrite writeFileSync_run by (cbn [files]; now rewrite Hfiles));
    cbn [files log app]; rewrite Hfiles, <- ?app_assoc; reflexivity.
Qed.


(** X6. When nothing throws, the notice of line 91 is printed once if some
    record of a non-comment entry had to be raised and not at all otherwise;
    then the project as the loop left it is serialized and written to
    [projectPath], whatever that file held; the file has to be there, or the
    bundle folder in which it is created. *)
Theorem notice_iff_some_record_raised (ctx : context) (projFolder : string)
    (w loaded : world) (pbx : pbxProject) (content : string) :
  let projectPath := path_join projFolder "project.pbxproj" in
  requireCordovaModule ctx "xcode" = Ok tt ->
  load_project parseSync ctx projectPath w = (Ok pbx, loaded) ->
  well_formed pbx = true ->
  writeSync (patch compare pbx).2 = Ok content ->
  writable (files w) projectPath = true ->
  activate ctx projFolder w =
  (Ok tt,
   mkWorld (<[projectPath := File content]> (files w))
     (log loaded ++
      (if up_to_date compare pbx then []
       else [ConsoleLog "IOS project now has deployment target set as: 8.0"]) ++
      [WriteSync (patch compare pbx).2; WriteFileSync projectPath content])) /\
  (up_to_date compare pbx = false <->
   exists k r, k ∈ JS.keys (pbxXCBuildConfigurationSection pbx) /\
               COMMENT_KEY k = false /\
               record_at pbx k = Some r /\ must_raise compare r = true).
Proof.
  intros projectPath Hrequire Hload Hwf Hwrite Hfile.
  split; [|apply up_to_date_false].
  pose proof (patch_flag compare pbx Hwf) as Hflag.
  destruct (patch compare pbx) as [res pbx'] eqn:Hpatch. cbn [fst snd] in *.
  subst res.
  rewrite (activate_run ctx projFolder w loaded pbx pbx' _ content
             Hrequire Hload Hpatch Hwrite Hfile).
  fold projectPath. unfold notice.
  now destruct (up_to_date compare pbx).
Qed.

(** X7. Run twice on a file that it parses itself, the function writes the
    same content both times and prints no notice the second time, provided
    the parser reads back what the serializer printed and the comparator does
    not put the threshold below itself. *)
Theorem second_run_rewrites_same_file (ctx : context) (projFolder : string)
    (w loaded : world) (pbx : pbxProject) (content : string) :
  let projectPath := path_join projFolder "project.pbxproj" in
  cordova_project ctx = None ->
  requireCordovaModule ctx "xcode" = Ok tt ->
  compare IOS_DEPLOYMENT_TARGET IOS_DEPLOYMENT_TARGET <> -1 ->
  load_project parseSync ctx projectPath w = (Ok pbx, loaded) ->
  well_formed pbx = true ->
  writeSync (patch compare pbx).2 = Ok content ->
  parseSync content = Ok (patch compare pbx).2 ->
  (forall entries, files w !! projectPath <> Some (Dir entries)) ->
  exists w1,
    activate ctx projFolder w = (Ok tt, w1) /\
    files w1 !! projectPath = Some (File content) /\
    activate ctx projFolder w1 =
    (Ok tt,
     mkWorld (files w1)
       (log w1 ++ [ParseSync projectPath; WriteSync (patch compare pbx).2;
                   WriteFileSync projectPath content])).
Proof.
  intros projectPath Hplain Hrequire Hrefl Hload Hwf Hwrite Hparse Hfile.
  assert (Hcan : writable (files w) projectPath = true).
  { destruct (loaded_from_file ctx projectPath w loaded pbx Hplain Hload)
      as [c Hc].
    unfold writable. now rewrite Hc. }
  pose proof (patch_flag compare pbx Hwf) as Hflag.
  destruct (patch_settles compare pbx Hrefl Hwf) as [Hwf' Hup'].
  destruct (patch compare pbx) as [res pbx'] eqn:Hpatch. cbn [fst snd] in *.
  subst res.
  eexists. split_and!.
  - exact (activate_run ctx projFolder w loaded pbx pbx' _ content
             Hrequire Hload Hpatch Hwrite Hcan).
  - cbn [files]. apply lookup_insert_eq.
  - set (w1 := mkWorld _ _).
    assert (Hfile1 : files w1 !! projectPath = Some (File content))
      by (unfold w1; cbn [files]; apply lookup_insert_eq).
    assert (Hload1 : load_project parseSync ctx projectPath w1 =
                     (Ok pbx', mkWorld (files w1) (log w1 ++ [ParseSync projectPath]))).
    { unfold load_project. rewrite Hplain.
      cbv [bind emit modify lift readFileSync get_state ret throw].
      cbn [files log]. now rewrite Hfile1, Hparse. }
    assert (Hpatch1 : patch compare pbx' = (Ok false, pbx')).
    { apply patch_nothing_to_raise; [exact Hwf'|].
      intros k r Hin Hc Hr.
      destruct (up_to_date_spec compare pbx' Hup' k r Hin Hc Hr) as (v & H).
      apply must_raise_false. eauto. }
    rewrite (activate_run ctx projFolder w1 _ pbx' pbx' false content
               Hrequire Hload1 Hpatch1 Hwrite).
    + fold projectPath. cbn [files log notice app].
      rewrite (insert_id _ _ _ Hfile1), <- app_assoc. reflexivity.
    + unfold writable. fold projectPath. now rewrite Hfile1.
Qed.

End ActivateFacts.

(** ** Every way the hook can end *)

Section HookOutcomes.
Variable compare : string -> string -> Z.
Variable path_join : string -> string -> string.
Variable parseSync : string -> result pbxProject.
Variable writeSync : pbxProject -> result string.
Variable logMe : string -> M world unit.

Local Abbreviation hook :=
  (enableAssociativeDomainsCapability compare path_join parseSync writeSync logMe).
Local Abbreviation activate :=
  (activateAssociativeDomains compare path_join parseSync writeSync).

(** X8. [directoryExists] answers whether a path that exists is a directory
    ([false] for a regular file) without calling [logMe]. Only for a path
    that does not exist does it call [logMe]; it then answers [false] if
    [logMe] returns, and whatever [logMe] throws escapes from it. *)
Theorem directoryExists_answers (p : string) (w : world) :
  let stat := mkWorld (files w) (log w ++ [StatSync p]) in
  (forall n, files w !! p = Some n ->
             directoryExists logMe p w = (Ok (is_directory n), stat)) /\
  (files w !! p = None ->
   exists message,
     (forall s, logMe message stat = (Ok tt, s) ->
                directoryExists logMe p w = (Ok false, s)) /\
     (forall e s, logMe message stat = (Throw e, s) ->
                  directoryExists logMe p w = (Throw e, s))).
Proof.
  intros stat. split.
  - intros n Hn. unfold directoryExists, try_catch.
    cbv [statSync_isDirectory bind emit modify get_state ret throw].
    cbn [files log]. rewrite Hn. now destruct n.
  - intros Hmissing.
    exists ("directoryExists error: " ++
            exn_to_string (not_there (files w) "stat" p)).
    unfold directoryExists, try_catch.
    cbv [statSync_isDirectory bind emit modify get_state ret throw].
    cbn [files log]. rewrite Hmissing. fold stat.
    split; [intros s Hlog|intros e s Hlog]; now rewrite Hlog.
Qed.

Lemma find_project_last (iosFolder : string) (data : list string)
    (projFolder : string) (projName : option string) :
  find_project path_join iosFolder data = (Some projFolder, projName) ->
  exists before folder after,
    data = (before ++ folder :: after)%list /\
    ends_with ".xcodeproj" folder = true /\
    Forall (fun e => ends_with ".xcodeproj" e = false) after /\
    projFolder = path_join iosFolder folder /\
    projName = Some (basename folder ".xcodeproj").
Proof.
  unfold find_project. induction data as [|x data IH] using rev_ind.
  - discriminate.
  - rewrite fold_left_app. cbn [fold_left]. unfold visit at 1.
    destruct (ends_with ".xcodeproj" x) eqn:Hx.
    + intros [= <- <-]. exists data, x, []. split_and!; try reflexivity.
      * exact Hx.
      * constructor.
    + intros Hfound.
      destruct (IH Hfound) as (before & folder & after & -> & Hm & Hafter & H).
      exists before, folder, (after ++ [x])%list. split_and!; try tauto.
      * now rewrite <- app_assoc.
      * apply Forall_app. split; [exact Hafter|]. now repeat constructor.
Qed.

(** The hook when the searched folder cannot be listed. *)
Lemma hook_listing_fails (ctx : context) (w : world) :
  let iosPlatform := path_join (projectRoot ctx) "platforms/ios/" in
  let iosFolder := match files w !! iosPlatform with
                   | Some _ => iosPlatform
                   | None => projectRoot ctx
                   end in
  (forall data, files w !! iosFolder <> Some (Dir data)) ->
  exists e, hook ctx w =
            (Throw e, mkWorld (files w)
                        (log w ++ [ExistsSync iosPlatform; ReaddirSync iosFolder])).
Proof.
  intros iosPlatform iosFolder Hnot.
  unfold enableAssociativeDomainsCapability. fold iosPlatform.
  unfold bind at 1. rewrite existsSync_run.
  assert (Hfolder : (if match files w !! iosPlatform with
                        | Some _ => true | None => false end
                     then iosPlatform else projectRoot ctx) = iosFolder).
  { unfold iosFolder. now destruct (files w !! iosPlatform). }
  rewrite Hfolder. unfold bind at 1. rewrite readdirSync_run. cbn [files log].
  rewrite <- app_assoc. cbn [app].
  destruct (files w !! iosFolder) as [[content|data]|] eqn:Hdir.
  - eauto.
  - now destruct (Hnot data).
  - eauto.
Qed.

(** X10. The hook changes no file when it throws, and it returns only after
    [activateAssociativeDomains] has written the project file of the last
    bundle of the listing: the guard on [directoryExists] never makes it
    return without patching. *)
Theorem hook_outcome (ctx : context) (w : world) :
  let iosPlatform := path_join (projectRoot ctx) "platforms/ios/" in
  let iosFolder := match files w !! iosPlatform with
                   | Some _ => iosPlatform
                   | None => projectRoot ctx
                   end in
  let out := hook ctx w in
  (forall e, out.1 = Throw e -> files out.2 = files w) /\
  (out.1 = Ok tt ->
   exists before folder after content,
     files w !! iosFolder = Some (Dir (before ++ folder :: after)) /\
     ends_with ".xcodeproj" folder = true /\
     Forall (fun e => ends_with ".xcodeproj" e = false) after /\
     let projectPath :=
       path_join (path_join iosFolder folder) "project.pbxproj" in
     files out.2 = <[projectPath := File content]> (files w) /\
     last (log out.2) = Some (WriteFileSync projectPath content)).
Proof.
  intros iosPlatform iosFolder out.
  destruct (files w !! iosFolder) as [[c|data]|] eqn:Hdir.
  1, 3: destruct (hook_listing_fails ctx w) as (e & Hrun);
    [fold iosPlatform iosFolder; intros data; rewrite Hdir; discriminate|];
    unfold out; rewrite Hrun; cbn [fst snd files];
    split; [reflexivity|discriminate].
  pose proof (hook_after_listing compare path_join parseSync writeSync logMe
                ctx w data Hdir) as Hrun.
  fold iosPlatform iosFolder in Hrun. unfold out. rewrite Hrun. clear Hrun.
  destruct (find_project path_join iosFolder data) as [projFolder projName]
    eqn:Hfound.
  destruct (falsy projFolder || falsy projName) eqn:Hfalsy.
  { cbn [fst snd files]. split; [reflexivity|discriminate]. }
  destruct projFolder as [projFolder|]; [|discriminate].
  destruct (find_project_last _ _ _ _ Hfound)
    as (before & folder & after & -> & Hm & Hafter & -> & _).
  cbn [default from_option id].
  set (w3 := mkWorld (files w) _).
  destruct (activate ctx (path_join iosFolder folder) w3) as [res w'] eqn:Hact.
  cbn [fst snd].
  destruct (activate_outcome compare path_join parseSync writeSync ctx _ w3 w' res Hact)
    as [(e & -> & Hfiles)
       |(-> & pbx & loaded & updated & pbx' & content & _ & _ & _ & _ & ->)].
  - split; [intros _ _; exact Hfiles|discriminate].
  - split; [discriminate|]. intros _.
    exists before, folder, after, content.
    split_and!; try assumption; try reflexivity.
    cbn [log].
    replace (log loaded ++ notice updated ++
             [WriteSync pbx';
              WriteFileSync
                (path_join (path_join iosFolder folder) "project.pbxproj")
                content])%list
      with ((log loaded ++ notice updated ++ [WriteSync pbx']) ++
            [WriteFileSync
               (path_join (path_join iosFolder folder) "project.pbxproj")
               content])%list
      by (now rewrite <- !app_assoc).
    apply last_snoc.
Qed.

(** X9. An entry named just [.xcodeproj] has an empty project name: when
    it is the last entry that matches, the hook throws the not-found error
    although the listing holds bundles, those before it included. *)
Theorem bundle_named_only_by_suffix (ctx : context) (w : world)
    (before after : list string) :
  let iosPlatform := path_join (projectRoot ctx) "platforms/ios/" in
  let iosFolder := match files w !! iosPlatform with
                   | Some _ => iosPlatform
                   | None => projectRoot ctx
                   end in
  files w !! iosFolder = Some (Dir (before ++ ".xcodeproj" :: after)) ->
  Forall (fun e => ends_with ".xcodeproj" e = false) after ->
  hook ctx w =
  (Throw (Error ("Could not find an .xcodeproj folder in: " ++ iosFolder)),
   mkWorld (files w)
     (log w ++ [ExistsSync iosPlatform; ReaddirSync iosFolder])).
Proof.
  intros iosPlatform iosFolder Hdir Hafter.
  rewrite (hook_after_listing compare path_join parseSync writeSync logMe
             ctx w _ Hdir).
  fold iosPlatform iosFolder. unfold find_project.
  rewrite fold_left_app. cbn [fold_left].
  rewrite (find_project_skip _ _ _ _ Hafter). unfold visit at 1.
  change (ends_with ".xcodeproj" ".xcodeproj") with true.
  change (basename ".xcodeproj" ".xcodeproj") with "".
  cbv [falsy JS.truthy]. cbn [String.eqb negb]. now rewrite orb_true_r.
Qed.

(** X11. When the listing holds a bundle with a name, the hook goes on to
    [activateAssociativeDomains] with the path of the last bundle listed,
    having looked for the platform folder, listed the searched folder and
    checked that it is a directory. *)
Theorem hook_patches_last_bundle (ctx : context) (w : world)
    (before after : list string) (projName : string) :
  let iosPlatform := path_join (projectRoot ctx) "platforms/ios/" in
  let iosFolder := match files w !! iosPlatform with
                   | Some _ => iosPlatform
                   | None => projectRoot ctx
                   end in
  let bundle := projName ++ ".xcodeproj" in
  files w !! iosFolder = Some (Dir (before ++ bundle :: after)) ->
  Forall (fun e => ends_with ".xcodeproj" e = false) after ->
  projName <> "" ->
  path_join iosFolder bundle <> "" ->
  hook ctx w =
  activate ctx (path_join iosFolder bundle)
    (mkWorld (files w)
       (log w ++ [ExistsSync iosPlatform; ReaddirSync iosFolder;
                  StatSync iosFolder])).
Proof.
  intros iosPlatform iosFolder bundle Hdir Hafter Hname Hpath.
  rewrite (hook_after_listing compare path_join parseSync writeSync logMe
             ctx w _ Hdir).
  fold iosPlatform iosFolder. unfold find_project.
  rewrite fold_left_app. cbn [fold_left].
  rewrite (find_project_skip _ _ _ _ Hafter). unfold visit at 1, bundle.
  rewrite ends_with_append, basename_append.
  cbv [falsy JS.truthy].
  apply String.eqb_neq in Hname, Hpath. fold bundle. rewrite Hname, Hpath.
  cbn [negb orb default from_option id log]. now rewrite <- app_assoc.
Qed.

End HookOutcomes.

(** ** The project of the platform API *)

Section PlatformApi.
Variable compare : string -> string -> Z.
Variable path_join : string -> string -> string.
Variable parseSync : string -> result pbxProject.
Variable writeSync : pbxProject -> result string.


End PlatformApi.

(** ** The further properties on sample projects and folders *)


Lemma loop_stops_at_first_non_record_witness :
  exists pbx',
    patch Version.compare Cases.broken_project = (Throw TypeError, pbx') /\
    record_at pbx' "1D6058940D05DD3E006BFB54" = Some (Sample.config (Some "8.0")) /\
    objects pbx' !! 2%positive = Some (Sample.config None).
Proof.
  destruct (loop_stops_at_first_non_record Version.compare Cases.broken_project
              ["1D6058940D05DD3E006BFB54"] ["C01FCF4F08A954540054247B"]
              "1D6058950D05DD3E006BFB54")
    as (pbx' & Hrun & Hbefore & Hrest).
  - reflexivity.
  - constructor; [eexists; reflexivity|constructor].
  - reflexivity.
  - exists pbx'. split_and!; [exact Hrun| |].
    + apply (Hbefore _ (Sample.config (Some "7.1"))); [in_keys|reflexivity].
    + rewrite Hrest; [reflexivity|]. intros k Hin.
      apply list_elem_of_singleton in Hin as ->. vm_compute. discriminate.
Defined.

Lemma other_settings_untouched_witness :
  exists updated pbx' r',
    patch Version.compare Sample.project = (Ok updated, pbx') /\
    record_at pbx' "1D6058940D05DD3E006BFB54" = Some r' /\
    JS.get "PRODUCT_NAME" (buildSettings r') = Some "App" /\
    name r' = "Debug".
Proof.
  destruct (other_settings_untouched Version.compare Sample.project eq_refl)
    as (updated & pbx' & Hrun & Hrec).
  destruct (Hrec "1D6058940D05DD3E006BFB54" (Sample.config None))
    as (r' & Hr' & _ & Hname & Hget & _); [in_keys|reflexivity|reflexivity|].
  exists updated, pbx', r'. split_and!; [exact Hrun|exact Hr'| |exact Hname].
  rewrite Hget; [reflexivity|discriminate].
Defined.

Lemma notice_iff_some_record_raised_witness :
  activateAssociativeDomains Version.compare Sample.path_join
    Sample.parseSync Sample.writeSync Sample.ctx Sample.bundle Cases.old =
  (Ok tt,
   mkWorld (<[Sample.project_file := File Cases.patched_text]> (files Cases.old))
     [ParseSync Sample.project_file;
      ConsoleLog "IOS project now has deployment target set as: 8.0";
      WriteSync Cases.patched;
      WriteFileSync Sample.project_file Cases.patched_text]).
Proof.
  apply (notice_iff_some_record_raised Version.compare Sample.path_join
           Sample.parseSync Sample.writeSync Sample.ctx Sample.bundle
           Cases.old
           (mkWorld (files Cases.old) [ParseSync Sample.project_file])
           Sample.project Cases.patched_text).
  - reflexivity.
  - reflexivity.
  - reflexivity.
  - reflexivity.
  - reflexivity.
Defined.

Lemma second_run_rewrites_same_file_witness :
  exists w1,
    activateAssociativeDomains Version.compare Sample.path_join
      Cases.parseSync Sample.writeSync Sample.ctx Sample.bundle Cases.old =
    (Ok tt, w1) /\
    files w1 !! Sample.project_file = Some (File Cases.patched_text) /\
    activateAssociativeDomains Version.compare Sample.path_join
      Cases.parseSync Sample.writeSync Sample.ctx Sample.bundle w1 =
    (Ok tt,
     mkWorld (files w1)
       (log w1 ++ [ParseSync Sample.project_file; WriteSync Cases.patched;
                   WriteFileSync Sample.project_file Cases.patched_text])).
Proof.
  apply (second_run_rewrites_same_file Version.compare Sample.path_join
           Cases.parseSync Sample.writeSync Sample.ctx Sample.bundle
           Cases.old
           (mkWorld (files Cases.old) [ParseSync Sample.project_file])
           Sample.project Cases.patched_text).
  - reflexivity.
  - reflexivity.
  - vm_compute. discriminate.
  - reflexivity.
  - reflexivity.
  - reflexivity.
  - reflexivity.
  - intros entries. vm_compute. discriminate.
Defined.

Lemma bundle_named_only_by_suffix_witness :
  Sample.hook Sample.ctx Cases.hidden_bundle =
  (Throw (Error "Could not find an .xcodeproj folder in: /app/platforms/ios/"),
   mkWorld (files Cases.hidden_bundle)
     [ExistsSync "/app/platforms/ios/"; ReaddirSync "/app/platforms/ios/"]).
Proof.
  apply (bundle_named_only_by_suffix Version.compare Sample.path_join
           Sample.parseSync Sample.writeSync Sample.logMe
           Sample.ctx Cases.hidden_bundle ["App.xcodeproj"] ["www"]);
    [reflexivity|repeat constructor].
Defined.

Lemma hook_patches_last_bundle_witness :
  Sample.hook Sample.ctx Cases.platform =
  activateAssociativeDomains Version.compare Sample.path_join
    Sample.parseSync Sample.writeSync Sample.ctx Sample.bundle
    (mkWorld (files Cases.platform)
       [ExistsSync "/app/platforms/ios/"; ReaddirSync "/app/platforms/ios/";
        StatSync "/app/platforms/ios/"]).
Proof.
  apply (hook_patches_last_bundle Version.compare Sample.path_join
           Sample.parseSync Sample.writeSync Sample.logMe
           Sample.ctx Cases.platform [] ["cordova"; "www"] "App");
    [reflexivity|repeat constructor|discriminate|vm_compute; discriminate].
Defined.
